(** * cf-deck: the startup configuration and session bootstrap

    A shallow embedding of [helpers/settings.go] (package [helpers]):
    [InitSettings], [getRedisSettings], [getRedisService] and
    [getRedisURIFromParts], together with the library calls they make
    ([net/url], [go-cfenv], [redigo], [gorilla/sessions], [redistore]),
    and the properties of the bootstrap that the specification states. *)

From Stdlib Require Import ZArith NArith Ascii String List Bool Lia.
From stdpp Require Import base strings gmap.

Local Open Scope string_scope.
Local Open Scope list_scope.

(** ** Bytes and strings

    A Go [string] is a sequence of bytes; it is modelled by [string],
    whose characters are the 256 values of [ascii]. *)

(** The double quote, for the messages that quote a key. *)
Definition dquote : string :=
  String (Ascii false true false false false true false false) EmptyString.

Definition byte_val (c : ascii) : N := N_of_ascii c.

Definition byte_between (lo hi : N) (c : ascii) : bool :=
  (lo <=? byte_val c)%N && (byte_val c <=? hi)%N.

Definition isLower (c : ascii) : bool := byte_between 97 122 c.
Definition isUpper (c : ascii) : bool := byte_between 65 90 c.
Definition isAlpha (c : ascii) : bool := isLower c || isUpper c.
Definition isDigit (c : ascii) : bool := byte_between 48 57 c.
Definition isAlnum (c : ascii) : bool := isAlpha c || isDigit c.

(** [c] is one of the bytes of [set]. *)
Fixpoint oneOf (set : string) (c : ascii) : bool :=
  match set with
  | EmptyString => false
  | String a set' => Ascii.eqb c a || oneOf set' c
  end.

(** Every byte of [s] satisfies [p]. *)
Fixpoint allBytes (p : ascii -> bool) (s : string) : bool :=
  match s with
  | EmptyString => true
  | String c s' => p c && allBytes p s'
  end.

(** The functions of Go's package [strings] that the code below calls.
    Where Go's code slices a string at an index it has just searched,
    the model returns the two slices. *)
Module GoStrings.

(** [strings.HasPrefix]. *)
Fixpoint HasPrefix (s prefix : string) : bool :=
  match prefix, s with
  | EmptyString, _ => true
  | String _ _, EmptyString => false
  | String a prefix', String b s' => Ascii.eqb a b && HasPrefix s' prefix'
  end.

(** The last byte of [s]. *)
Fixpoint lastByte (s : string) : option ascii :=
  match s with
  | EmptyString => None
  | String c EmptyString => Some c
  | String _ s' => lastByte s'
  end.

(** [strings.HasSuffix] for a suffix of one byte. *)
Definition HasSuffix (s : string) (c : ascii) : bool :=
  match lastByte s with
  | Some d => Ascii.eqb d c
  | None => false
  end.

(** [s[:len(s)-1]]. *)
Fixpoint dropLast (s : string) : string :=
  match s with
  | EmptyString => EmptyString
  | String _ EmptyString => EmptyString
  | String c s' => String c (dropLast s')
  end.

(** [strings.Count] for a separator of one byte. *)
Fixpoint Count (s : string) (c : ascii) : nat :=
  match s with
  | EmptyString => 0
  | String a s' => (if Ascii.eqb a c then 1 else 0) + Count s' c
  end.

(** [strings.Contains] for a separator of one byte. *)
Fixpoint Contains (s : string) (c : ascii) : bool :=
  match s with
  | EmptyString => false
  | String a s' => Ascii.eqb a c || Contains s' c
  end.

(** [strings.Cut] for a separator of one byte:
    [(before, after, found)], and [(s, "", false)] when [sep] is not
    in [s]. *)
Fixpoint Cut (s : string) (sep : ascii) : string * string * bool :=
  match s with
  | EmptyString => (EmptyString, EmptyString, false)
  | String a s' =>
      if Ascii.eqb a sep then (EmptyString, s', true)
      else let '(before, after, found) := Cut s' sep in
           (String a before, after, found)
  end.

(** [i := strings.LastIndex(s, sep)] for a separator of one byte:
    [None] when [i < 0], else [Some (s[:i], s[i+1:])]. *)
Fixpoint LastCut (s : string) (sep : ascii) : option (string * string) :=
  match s with
  | EmptyString => None
  | String a s' =>
      match LastCut s' sep with
      | Some (before, after) => Some (String a before, after)
      | None => if Ascii.eqb a sep then Some (EmptyString, s') else None
      end
  end.

(** [i := strings.Index(s, sep)]: [None] when [i < 0], else
    [Some (s[:i], s[i:])]. *)
Fixpoint IndexSplit (s sep : string) : option (string * string) :=
  if HasPrefix s sep then Some (EmptyString, s)
  else match s with
       | EmptyString => None
       | String a s' =>
           match IndexSplit s' sep with
           | Some (before, from) => Some (String a before, from)
           | None => None
           end
       end.

(** [s[:n]], and all of [s] when it is shorter. *)
Fixpoint takeBytes (n : nat) (s : string) : string :=
  match n, s with
  | O, _ => EmptyString
  | _, EmptyString => EmptyString
  | S n', String c s' => String c (takeBytes n' s')
  end.

End GoStrings.

(** ** Errors *)

(** Modelled from the spec: the constants [BasePathEnvVar],
    [HostnameEnvVar], ... that name the environment variables are
    declared in a file of package [helpers] that is not among the
    sources. Section 6 of the specification lists the variables; each
    constant is one name of this enumeration. *)
Inductive EnvVarName : Type :=
| BasePathEnvVar | HostnameEnvVar | APIURLEnvVar | LoginURLEnvVar
| UAAURLEnvVar | LogURLEnvVar | PProfEnabledEnvVar | BuildInfoEnvVar
| LocalCFEnvVar | SecureCookiesEnvVar | ClientIDEnvVar
| ClientSecretEnvVar | SessionBackendEnvVar | SessionKeyEnvVar
| SMTPFromEnvVar | SMTPHostEnvVar | SMTPPassEnvVar | SMTPPortEnvVar
| SMTPUserEnvVar | TICSecretEnvVar.

Definition EnvVarName_eqb (a b : EnvVarName) : bool :=
  match a, b with
  | BasePathEnvVar, BasePathEnvVar | HostnameEnvVar, HostnameEnvVar
  | APIURLEnvVar, APIURLEnvVar | LoginURLEnvVar, LoginURLEnvVar
  | UAAURLEnvVar, UAAURLEnvVar | LogURLEnvVar, LogURLEnvVar
  | PProfEnabledEnvVar, PProfEnabledEnvVar
  | BuildInfoEnvVar, BuildInfoEnvVar | LocalCFEnvVar, LocalCFEnvVar
  | SecureCookiesEnvVar, SecureCookiesEnvVar
  | ClientIDEnvVar, ClientIDEnvVar
  | ClientSecretEnvVar, ClientSecretEnvVar
  | SessionBackendEnvVar, SessionBackendEnvVar
  | SessionKeyEnvVar, SessionKeyEnvVar | SMTPFromEnvVar, SMTPFromEnvVar
  | SMTPHostEnvVar, SMTPHostEnvVar | SMTPPassEnvVar, SMTPPassEnvVar
  | SMTPPortEnvVar, SMTPPortEnvVar | SMTPUserEnvVar, SMTPUserEnvVar
  | TICSecretEnvVar, TICSecretEnvVar => true
  | _, _ => false
  end.

(** The values of Go's interface type [error] that the bootstrap can
    produce or pass on. [None : option error] is Go's [nil]. *)
Inductive error : Type :=
| errorString (msg : string)
    (** [errors.New(msg)], and the errors of the libraries, by message *)
| fmtError (format : string) (args : list string)
    (** [fmt.Errorf(format, args...)], before formatting *)
| ErrMissingEnvVar (name : EnvVarName)
    (** [*ErrMissingEnvVar], the specification's
        [MissingRequiredConfig(name)] *)
| EscapeError (s : string)          (** [url.EscapeError] *)
| InvalidHostError (s : string)     (** [url.InvalidHostError] *)
| url_Error (op : string) (url : string) (err : error).
    (** [*url.Error{Op, URL, Err}] *)

(** ** Package [net/url]: [url.Parse]

    [getRedisSettings] reads two fields of the parsed URL, [Host] and
    [User]. The model follows [Parse] of Go's standard library and keeps
    every check that can make it fail; of the result it keeps those two
    fields. *)
Module url.

(** [url.Userinfo]. *)
Record Userinfo : Type := mkUserinfo {
  username : string;
  password : string;
  passwordSet : bool
}.

Definition User (name : string) : Userinfo := mkUserinfo name "" false.
Definition UserPassword (name pw : string) : Userinfo :=
  mkUserinfo name pw true.

(** [func (u *Userinfo) Password() (string, bool)]. *)
Definition Password (u : Userinfo) : string * bool :=
  (password u, passwordSet u).

(** The fields of [url.URL] that the caller reads. *)
Record URL : Type := mkURL {
  User_ : option Userinfo;   (** [User *Userinfo], [None] for [nil] *)
  Host : string
}.

Inductive encoding : Type :=
| encodePath | encodePathSegment | encodeHost | encodeZone
| encodeUserPassword | encodeQueryComponent | encodeFragment.

Definition encoding_eqb (a b : encoding) : bool :=
  match a, b with
  | encodePath, encodePath | encodePathSegment, encodePathSegment
  | encodeHost, encodeHost | encodeZone, encodeZone
  | encodeUserPassword, encodeUserPassword
  | encodeQueryComponent, encodeQueryComponent
  | encodeFragment, encodeFragment => true
  | _, _ => false
  end.

Definition ishex (c : ascii) : bool :=
  isDigit c || byte_between 97 102 c || byte_between 65 70 c.

Definition unhex (c : ascii) : N :=
  if isDigit c then byte_val c - 48
  else if byte_between 97 102 c then byte_val c - 97 + 10
  else if byte_between 65 70 c then byte_val c - 65 + 10
  else 0.

(** [shouldEscape(c, mode)]. *)
Definition shouldEscape (c : ascii) (mode : encoding) : bool :=
  if isAlnum c then false
  else if (encoding_eqb mode encodeHost || encoding_eqb mode encodeZone)
          && oneOf ("!$&'()*+,;=:[]<>" +:+ dquote) c then false
  else if oneOf "-_.~" c then false
  else if oneOf "$&+,/:;=?@" c then
    match mode with
    | encodePath => Ascii.eqb c "?"
    | encodePathSegment => oneOf "/;,?" c
    | encodeUserPassword => oneOf "@/?:" c
    | encodeQueryComponent => true
    | encodeFragment => false
    | _ => true
    end
  else if encoding_eqb mode encodeFragment && oneOf "!()*" c then false
  else true.

(** The first loop of [unescape]: the error of the first malformed or
    forbidden byte, if any. *)
Fixpoint unescape_check (s : string) (mode : encoding) : option error :=
  match s with
  | EmptyString => None
  | String c s' =>
      if Ascii.eqb c "%" then
        match s' with
        | String h1 (String h2 s'') =>
            if negb (ishex h1 && ishex h2) then
              Some (EscapeError (GoStrings.takeBytes 3 s))
            else if encoding_eqb mode encodeHost && (unhex h1 <? 8)%N
                    && negb (Ascii.eqb h1 "2" && Ascii.eqb h2 "5") then
              Some (EscapeError (GoStrings.takeBytes 3 s))
            else if encoding_eqb mode encodeZone
                    && negb (Ascii.eqb h1 "2" && Ascii.eqb h2 "5")
                    && negb (N.eqb (unhex h1 * 16 + unhex h2) 32)
                    && shouldEscape (ascii_of_N (unhex h1 * 16 + unhex h2))
                                    encodeHost then
              Some (EscapeError (GoStrings.takeBytes 3 s))
            else unescape_check s'' mode
        | _ => Some (EscapeError (GoStrings.takeBytes 3 s))
        end
      else if Ascii.eqb c "+" then unescape_check s' mode
      else if (encoding_eqb mode encodeHost || encoding_eqb mode encodeZone)
              && (byte_val c <? 128)%N && shouldEscape c encodeHost then
        Some (InvalidHostError (String c EmptyString))
      else unescape_check s' mode
  end.

(** The second loop of [unescape]: the decoded string. *)
Fixpoint unescape_decode (s : string) (mode : encoding) : string :=
  match s with
  | EmptyString => EmptyString
  | String c s' =>
      if Ascii.eqb c "%" then
        match s' with
        | String h1 (String h2 s'') =>
            String (ascii_of_N (unhex h1 * 16 + unhex h2))
                   (unescape_decode s'' mode)
        | _ => String c (unescape_decode s' mode)
        end
      else if Ascii.eqb c "+" then
        String (if encoding_eqb mode encodeQueryComponent then " "%char
                else "+"%char)
               (unescape_decode s' mode)
      else String c (unescape_decode s' mode)
  end.

(** [unescape(s, mode)]. *)
Definition unescape (s : string) (mode : encoding) : error + string :=
  match unescape_check s mode with
  | Some e => inl e
  | None => inr (unescape_decode s mode)
  end.

(** [stringContainsCTLByte]. *)
Definition isCTL (c : ascii) : bool :=
  (byte_val c <? 32)%N || N.eqb (byte_val c) 127.

Definition stringContainsCTLByte (s : string) : bool :=
  negb (allBytes (fun c => negb (isCTL c)) s).

(** The result of the loop of [getScheme]. *)
Inductive SchemeScan : Type :=
| NoScheme                                 (** [return "", rawURL, nil] *)
| MissingScheme                            (** a colon at index 0 *)
| FoundScheme (scheme rest : string).      (** [rawURL[:i], rawURL[i+1:]] *)

(** The loop of [getScheme], at index [i] with [s = rawURL[i:]]; the
    scheme it returns is the one found in [s]. *)
Fixpoint getScheme_loop (i : nat) (s : string) : SchemeScan :=
  match s with
  | EmptyString => NoScheme
  | String c s' =>
      let continue :=
        match getScheme_loop (S i) s' with
        | FoundScheme scheme rest => FoundScheme (String c scheme) rest
        | r => r
        end in
      if isAlpha c then continue
      else if isDigit c || oneOf "+-." c then
        if Nat.eqb i 0 then NoScheme else continue
      else if Ascii.eqb c ":" then
        if Nat.eqb i 0 then MissingScheme
        else FoundScheme EmptyString s'
      else NoScheme
  end.

(** [getScheme(rawURL)]. *)
Definition getScheme (rawURL : string) : error + (string * string) :=
  match getScheme_loop 0 rawURL with
  | NoScheme => inr (EmptyString, rawURL)
  | MissingScheme => inl (errorString "missing protocol scheme")
  | FoundScheme scheme rest => inr (scheme, rest)
  end.

(** [validOptionalPort(port)]. *)
Definition validOptionalPort (port : string) : bool :=
  match port with
  | EmptyString => true
  | String c digits => Ascii.eqb c ":" && allBytes isDigit digits
  end.

(** [validUserinfo(s)]: a byte above 127 is part of a rune that the
    loop rejects. *)
Definition validUserinfo (s : string) : bool :=
  allBytes (fun c => isAlnum c || oneOf "-._:~!$&'()*+,;=%@" c) s.

(** [parseHost(host)]. *)
Definition parseHost (host : string) : error + string :=
  let plain (_ : unit) := unescape host encodeHost in
  if GoStrings.HasPrefix host "[" then
    match GoStrings.LastCut host "]" with
    | None => inl (errorString "missing ']' in host")
    | Some (before, colonPort) =>
        if negb (validOptionalPort colonPort) then
          inl (fmtError "invalid port %q after host" [colonPort])
        else
          match GoStrings.IndexSplit before "%25" with
          | Some (host1, zone) =>
              match unescape host1 encodeHost with
              | inl e => inl e
              | inr host1 =>
                  match unescape zone encodeZone with
                  | inl e => inl e
                  | inr host2 =>
                      match unescape ("]" +:+ colonPort) encodeHost with
                      | inl e => inl e
                      | inr host3 => inr (host1 +:+ host2 +:+ host3)
                      end
                  end
              end
          | None => plain tt
          end
    end
  else
    match GoStrings.LastCut host ":" with
    | Some (_, port) =>
        if negb (validOptionalPort (":" +:+ port)) then
          inl (fmtError "invalid port %q after host" [":" +:+ port])
        else plain tt
    | None => plain tt
    end.

(** [parseAuthority(authority)]. *)
Definition parseAuthority (authority : string)
  : error + (option Userinfo * string) :=
  match GoStrings.LastCut authority "@" with
  | None =>
      match parseHost authority with
      | inl e => inl e
      | inr host => inr (None, host)
      end
  | Some (userinfo, hostpart) =>
      match parseHost hostpart with
      | inl e => inl e
      | inr host =>
          if negb (validUserinfo userinfo) then
            inl (errorString "net/url: invalid userinfo")
          else if negb (GoStrings.Contains userinfo ":") then
            match unescape userinfo encodeUserPassword with
            | inl e => inl e
            | inr userinfo => inr (Some (User userinfo), host)
            end
          else
            let '(username, password, _) := GoStrings.Cut userinfo ":" in
            match unescape username encodeUserPassword with
            | inl e => inl e
            | inr username =>
                match unescape password encodeUserPassword with
                | inl e => inl e
                | inr password =>
                    inr (Some (UserPassword username password), host)
                end
            end
      end
  end.

(** [func (u *URL) setPath(p string) error]: the error only. *)
Definition setPath (p : string) : option error :=
  unescape_check p encodePath.

(** [func (u *URL) setFragment(f string) error]: the error only. *)
Definition setFragment (f : string) : option error :=
  unescape_check f encodeFragment.

(** [parse(rawURL, viaRequest)] at [viaRequest = false]. *)
Definition parse (rawURL : string) : error + URL :=
  if stringContainsCTLByte rawURL then
    inl (errorString "net/url: invalid control character in URL")
  else if String.eqb rawURL "*" then inr (mkURL None "")
  else
    match getScheme rawURL with
    | inl e => inl e
    | inr (scheme, rest) =>
        let rest :=
          if GoStrings.HasSuffix rest "?"
             && Nat.eqb (GoStrings.Count rest "?") 1
          then GoStrings.dropLast rest
          else fst (fst (GoStrings.Cut rest "?")) in
        if negb (GoStrings.HasPrefix rest "/")
           && negb (String.eqb scheme "") then
          inr (mkURL None "")          (* url.Opaque = rest *)
        else if negb (GoStrings.HasPrefix rest "/")
                && GoStrings.Contains
                     (fst (fst (GoStrings.Cut rest "/"))) ":" then
          inl (errorString
                 "first path segment in URL cannot contain colon")
        else if (negb (String.eqb scheme "")
                 || negb (GoStrings.HasPrefix rest "///"))
                && GoStrings.HasPrefix rest "//" then
          match rest with
          | String _ (String _ authority) =>
              let '(authority, rest) :=
                match GoStrings.Cut authority "/" with
                | (before, after, true) => (before, "/" +:+ after)
                | (_, _, false) => (authority, EmptyString)
                end in
              match parseAuthority authority with
              | inl e => inl e
              | inr (user, host) =>
                  match setPath rest with
                  | Some e => inl e
                  | None => inr (mkURL user host)
                  end
              end
          | _ => inr (mkURL None "")   (* excluded by the prefix test *)
          end
        else
          match setPath rest with
          | Some e => inl e
          | None => inr (mkURL None "")
          end
    end.

(** [url.Parse(rawURL)]. *)
Definition Parse (rawURL : string) : error + URL :=
  let '(u, frag, _) := GoStrings.Cut rawURL "#" in
  match parse u with
  | inl err => inl (url_Error "parse" u err)
  | inr url =>
      if String.eqb frag "" then inr url
      else match setFragment frag with
           | Some err => inl (url_Error "parse" rawURL err)
           | None => inr url
           end
  end.

End url.

(** ** Package [go-cfenv]: the service binding *)
Module cfenv.

(** A value of a credentials mapping ([map[string]interface{}],
    decoded from JSON). *)
Inductive Value : Type :=
| VString (s : string)
| VNumber (n : Z)
| VBool (b : bool)
| VNull.

(** [cfenv.Service]. *)
Record Service : Type := mkService {
  Name : string;
  Label : string;
  Tags : list string;
  Credentials : gmap string Value
}.

(** [cfenv.App]: of the application's environment the resolver reads
    [Services]. Go's [Services] is a map from a label to the services
    of that label; the list holds them in the order in which [WithTag]
    visits them. *)
Record App : Type := mkApp {
  Services : list Service
}.

Definition toLowerByte (c : ascii) : ascii :=
  if isUpper c then ascii_of_N (byte_val c + 32) else c.

Fixpoint toLower (s : string) : string :=
  match s with
  | EmptyString => EmptyString
  | String c s' => String (toLowerByte c) (toLower s')
  end.

(** [strings.EqualFold] on the letters of ASCII. *)
Definition EqualFold (a b : string) : bool :=
  String.eqb (toLower a) (toLower b).

(** [func (s *Services) WithTag(tag string) ([]Service, error)]: the
    services one of whose tags is [tag], and an error when there is
    none. *)
Definition WithTag (s : list Service) (tag : string)
  : list Service * option error :=
  match List.filter (fun service => existsb (EqualFold tag) (Tags service)) s with
  | [] => ([], Some (fmtError "no services with tag %s" [tag]))
  | result => (result, None)
  end.

End cfenv.

(** ** The connection-string resolver *)

(** The type assertion [v.(string)] on the value found under a key of a
    credentials mapping: [(s, true)] for a string, [("", false)] for any
    other value and for a key that is absent. *)
Definition assertString (v : option cfenv.Value) : string * bool :=
  match v with
  | Some (cfenv.VString s) => (s, true)
  | _ => (EmptyString, false)
  end.

(** The error [errors.New(`Could not find "key" key`)]. *)
Definition couldNotFindKey (key : string) : error :=
  errorString ("Could not find " +:+ dquote +:+ key +:+ dquote +:+ " key").

(** [getRedisURIFromParts(service)]. *)
Definition getRedisURIFromParts (service : cfenv.Service)
  : string * option error :=
  let '(host, ok) := assertString (cfenv.Credentials service !! "hostname") in
  if negb ok then (EmptyString, Some (couldNotFindKey "host"))
  else
    let '(port, ok) := assertString (cfenv.Credentials service !! "port") in
    if negb ok then (EmptyString, Some (couldNotFindKey "port"))
    else
      let '(password, ok) :=
        assertString (cfenv.Credentials service !! "password") in
      if negb ok then (EmptyString, Some (couldNotFindKey "password"))
      else ("redis://:" +:+ password +:+ "@" +:+ host +:+ ":" +:+ port, None).

(** [getRedisService(env)]; [env = None] is the [nil] pointer. *)
Definition getRedisService (env : option cfenv.App) : string * option error :=
  match env with
  | None => (EmptyString, Some (errorString "Empty Cloud Foundry environment"))
  | Some app =>
      match cfenv.WithTag (cfenv.Services app) "redis" with
      | (_, Some err) => (EmptyString, Some err)
      | ([], None) =>
          (EmptyString,
           Some (errorString
                   ("Could not find service with tag " +:+ dquote +:+ "redis"
                    +:+ dquote)))
      | (service0 :: _, None) =>
          let '(uri, ok) :=
            assertString (cfenv.Credentials service0 !! "uri") in
          if negb ok then
            match getRedisURIFromParts service0 with
            | (uri, None) => (uri, None)
            | (_, Some _) =>
                (EmptyString, Some (errorString "Could not parse redis uri"))
            end
          else (uri, None)
      end
  end.

(** [err != nil]. *)
Definition notNil (err : option error) : bool :=
  match err with
  | Some _ => true
  | None => false
  end.

(** [os.Getenv(key)] in the process environment [environ]. *)
Definition Getenv (environ : gmap string string) (key : string) : string :=
  default EmptyString (environ !! key).

(** Lines 251 to 261 of [getRedisSettings]: the address and the password
    of the chosen URI. *)
Definition settingsOfURI (uri : string) : string * string * option error :=
  match url.Parse uri with
  | inl err => (EmptyString, EmptyString, Some err)
  | inr u =>
      let password :=
        match url.User_ u with
        | Some user => fst (url.Password user)
        | None => EmptyString
        end in
      (url.Host u, password, None)
  end.

(** [getRedisSettings(env)], run in the process environment [environ]. *)
Definition getRedisSettings (environ : gmap string string)
    (env : option cfenv.App) : string * string * option error :=
  let uri := Getenv environ "REDIS_URI" in
  let '(uri, err) :=
    if String.eqb uri "" then getRedisService env else (uri, None) in
  let uri :=
    if String.eqb uri "" || notNil err
    then "redis://localhost:6379" else uri in
  settingsOfURI uri.

(** ** The libraries of the session backends *)

(** [time.Duration], a number of nanoseconds. *)
Definition Duration : Type := Z.
Definition Second : Duration := 1000000000%Z.

(** Package [redigo/redis]. *)
Module redis.

Inductive DialOption : Type :=
| DialConnectTimeout (d : Duration)
| DialWriteTimeout (d : Duration)
| DialReadTimeout (d : Duration).

(** [redis.Conn]: of a connection the code observes the error that
    [Do(cmd, args...)] returns. *)
Record Conn : Type := mkConn {
  conn_id : nat;
  Do : string -> list string -> option error
}.

(** The calls that a dial makes, in order. *)
Inductive Call : Type :=
| CallDial (network address : string) (options : list DialOption)
| CallDo (c : nat) (cmd : string) (args : list string)
| CallClose (c : nat).

(** [redis.Dial(network, address, options...)], as the network
    answers it. *)
Definition Network : Type :=
  string -> string -> list DialOption -> error + Conn.

(** [redis.Pool]. [Dial] is a closure over the variable [err] of
    [InitSettings]: its first argument is the value that variable has
    when the pool calls it. It returns the calls it made and the pair
    [(redis.Conn, error)]. *)
Record Pool : Type := mkPool {
  MaxIdle : Z;
  IdleTimeout : Duration;
  TestOnBorrow : Conn -> Z -> option error;
  Dial : option error -> Network -> list Call * (option Conn * option error)
}.

End redis.

(** Package [gorilla/sessions]. *)
Module sessions.

(** [sessions.Options]. *)
Record Options : Type := mkOptions {
  Path : string;
  Domain : string;
  MaxAge : Z;
  Secure : bool;
  HttpOnly : bool
}.

(** [sessions.FilesystemStore]. *)
Record FilesystemStore : Type := mkFilesystemStore {
  fs_keyPairs : string;
  fs_Options : Options;
  fs_path : string;
  fs_maxLength : Z
}.

(** [sessions.NewFilesystemStore(path, keyPairs)]; an empty [path]
    stands for [os.TempDir()]. *)
Definition NewFilesystemStore (path keyPairs : string) : FilesystemStore :=
  {| fs_keyPairs := keyPairs;
     fs_Options := {| Path := "/"; Domain := ""; MaxAge := 86400 * 30;
                      Secure := false; HttpOnly := false |};
     fs_path := path;
     fs_maxLength := 4096 |}.

(** [func (s *FilesystemStore) MaxLength(l int)]. *)
Definition MaxLength (l : Z) (s : FilesystemStore) : FilesystemStore :=
  {| fs_keyPairs := fs_keyPairs s; fs_Options := fs_Options s;
     fs_path := fs_path s; fs_maxLength := l |}.

(** [s.Options = o]. *)
Definition fs_set_Options (o : Options) (s : FilesystemStore)
  : FilesystemStore :=
  {| fs_keyPairs := fs_keyPairs s; fs_Options := o;
     fs_path := fs_path s; fs_maxLength := fs_maxLength s |}.

End sessions.

(** Package [boj/redistore]. *)
Module redistore.

(** [redistore.RediStore]. *)
Record RediStore : Type := mkRediStore {
  rs_Pool : redis.Pool;
  rs_keyPairs : string;
  rs_Options : sessions.Options;
  rs_DefaultMaxAge : Z;
  rs_maxLength : Z;
  rs_keyPrefix : string
}.

(** [redistore.NewRediStoreWithPool(pool, keyPairs)]: the store, and
    the error [ping] of the first round trip through the pool. *)
Definition NewRediStoreWithPool (ping : option error) (pool : redis.Pool)
    (keyPairs : string) : RediStore * option error :=
  ({| rs_Pool := pool; rs_keyPairs := keyPairs;
      rs_Options := {| sessions.Path := "/"; sessions.Domain := "";
                       sessions.MaxAge := 86400 * 30;
                       sessions.Secure := false;
                       sessions.HttpOnly := false |};
      rs_DefaultMaxAge := 60 * 20; rs_maxLength := 4096;
      rs_keyPrefix := "session_" |}, ping).

(** [func (s *RediStore) SetMaxLength(l int)]. *)
Definition SetMaxLength (l : Z) (s : RediStore) : RediStore :=
  if (0 <=? l)%Z then
    {| rs_Pool := rs_Pool s; rs_keyPairs := rs_keyPairs s;
       rs_Options := rs_Options s; rs_DefaultMaxAge := rs_DefaultMaxAge s;
       rs_maxLength := l; rs_keyPrefix := rs_keyPrefix s |}
  else s.

(** [s.Options = o]. *)
Definition rs_set_Options (o : sessions.Options) (s : RediStore) : RediStore :=
  {| rs_Pool := rs_Pool s; rs_keyPairs := rs_keyPairs s;
     rs_Options := o; rs_DefaultMaxAge := rs_DefaultMaxAge s;
     rs_maxLength := rs_maxLength s; rs_keyPrefix := rs_keyPrefix s |}.

End redistore.

(** Package [oauth2]. *)
Module oauth2.

Record Endpoint : Type := mkEndpoint {
  AuthURL : string;
  TokenURL : string
}.

Record Config : Type := mkConfig {
  ClientID : string;
  ClientSecret : string;
  Endpoint_ : Endpoint;
  RedirectURL : string;
  Scopes : list string
}.

End oauth2.

(** Package [oauth2/clientcredentials]. *)
Module clientcredentials.

Record Config : Type := mkConfig {
  ClientID : string;
  ClientSecret : string;
  TokenURL : string;
  Scopes : list string
}.

End clientcredentials.

(** ** The settings *)

(** [expirationConstant]: 7 days at most. *)
Definition expirationConstant : Z := (60 * 60 * 24 * 7)%Z.

(** A value of the interface [sessions.Store]. *)
Inductive Store : Type :=
| RediStore_ (store : redistore.RediStore)
| FilesystemStore_ (store : sessions.FilesystemStore).

(** The closure [func() (string, error) { return GenerateRandomString(n) }]. *)
Inductive StateGeneratorFunc : Type :=
| GenerateRandomString_closure (n : Z).

(** What a health check meets when it runs: the connection that
    [redisPool.Get()] hands out. *)
Record ProbeState : Type := mkProbeState {
  pool_Get : redis.Conn
}.

(** [Settings], the object that holds the global values of the service. *)
Record Settings : Type := mkSettings {
  OAuthConfig : option oauth2.Config;
  ConsoleAPI : string;
  LoginURL : string;
  Sessions : option Store;
  StateGenerator : option StateGeneratorFunc;
  UaaURL : string;
  LogURL : string;
  BasePath : string;
  HighPrivilegedOauthConfig : option clientcredentials.Config;
  PProfEnabled : bool;
  BuildInfo : string;
  SecureCookies : bool;
  LocalCF : bool;
  AppURL : string;
  SessionBackend : string;
  SessionBackendHealthCheck : option (ProbeState -> bool);
  SMTPHost : string;
  SMTPPort : string;
  SMTPUser : string;
  SMTPPass : string;
  SMTPFrom : string;
  TICSecret : string
}.

(** [s.OAuthConfig = v]. *)
Definition set_OAuthConfig (v : option oauth2.Config) (s : Settings) : Settings :=
  {| OAuthConfig := v; ConsoleAPI := ConsoleAPI s; LoginURL := LoginURL s;
     Sessions := Sessions s; StateGenerator := StateGenerator s;
     UaaURL := UaaURL s; LogURL := LogURL s; BasePath := BasePath s;
     HighPrivilegedOauthConfig := HighPrivilegedOauthConfig s;
     PProfEnabled := PProfEnabled s; BuildInfo := BuildInfo s;
     SecureCookies := SecureCookies s; LocalCF := LocalCF s;
     AppURL := AppURL s; SessionBackend := SessionBackend s;
     SessionBackendHealthCheck := SessionBackendHealthCheck s;
     SMTPHost := SMTPHost s; SMTPPort := SMTPPort s;
     SMTPUser := SMTPUser s; SMTPPass := SMTPPass s;
     SMTPFrom := SMTPFrom s; TICSecret := TICSecret s |}.

(** [s.ConsoleAPI = v]. *)
Definition set_ConsoleAPI (v : string) (s : Settings) : Settings :=
  {| OAuthConfig := OAuthConfig s; ConsoleAPI := v; LoginURL := LoginURL s;
     Sessions := Sessions s; StateGenerator := StateGenerator s;
     UaaURL := UaaURL s; LogURL := LogURL s; BasePath := BasePath s;
     HighPrivilegedOauthConfig := HighPrivilegedOauthConfig s;
     PProfEnabled := PProfEnabled s; BuildInfo := BuildInfo s;
     SecureCookies := SecureCookies s; LocalCF := LocalCF s;
     AppURL := AppURL s; SessionBackend := SessionBackend s;
     SessionBackendHealthCheck := SessionBackendHealthCheck s;
     SMTPHost := SMTPHost s; SMTPPort := SMTPPort s;
     SMTPUser := SMTPUser s; SMTPPass := SMTPPass s;
     SMTPFrom := SMTPFrom s; TICSecret := TICSecret s |}.

(** [s.LoginURL = v]. *)
Definition set_LoginURL (v : string) (s : Settings) : Settings :=
  {| OAuthConfig := OAuthConfig s; ConsoleAPI := ConsoleAPI s;
     LoginURL := v; Sessions := Sessions s;
     StateGenerator := StateGenerator s; UaaURL := UaaURL s;
     LogURL := LogURL s; BasePath := BasePath s;
     HighPrivilegedOauthConfig := HighPrivilegedOauthConfig s;
     PProfEnabled := PProfEnabled s; BuildInfo := BuildInfo s;
     SecureCookies := SecureCookies s; LocalCF := LocalCF s;
     AppURL := AppURL s; SessionBackend := SessionBackend s;
     SessionBackendHealthCheck := SessionBackendHealthCheck s;
     SMTPHost := SMTPHost s; SMTPPort := SMTPPort s;
     SMTPUser := SMTPUser s; SMTPPass := SMTPPass s;
     SMTPFrom := SMTPFrom s; TICSecret := TICSecret s |}.

(** [s.Sessions = v]. *)
Definition set_Sessions (v : option Store) (s : Settings) : Settings :=
  {| OAuthConfig := OAuthConfig s; ConsoleAPI := ConsoleAPI s;
     LoginURL := LoginURL s; Sessions := v;
     StateGenerator := StateGenerator s; UaaURL := UaaURL s;
     LogURL := LogURL s; BasePath := BasePath s;
     HighPrivilegedOauthConfig := HighPrivilegedOauthConfig s;
     PProfEnabled := PProfEnabled s; BuildInfo := BuildInfo s;
     SecureCookies := SecureCookies s; LocalCF := LocalCF s;
     AppURL := AppURL s; SessionBackend := SessionBackend s;
     SessionBackendHealthCheck := SessionBackendHealthCheck s;
     SMTPHost := SMTPHost s; SMTPPort := SMTPPort s;
     SMTPUser := SMTPUser s; SMTPPass := SMTPPass s;
     SMTPFrom := SMTPFrom s; TICSecret := TICSecret s |}.

(** [s.StateGenerator = v]. *)
Definition set_StateGenerator (v : option StateGeneratorFunc) (s : Settings) : Settings :=
  {| OAuthConfig := OAuthConfig s; ConsoleAPI := ConsoleAPI s;
     LoginURL := LoginURL s; Sessions := Sessions s; StateGenerator := v;
     UaaURL := UaaURL s; LogURL := LogURL s; BasePath := BasePath s;
     HighPrivilegedOauthConfig := HighPrivilegedOauthConfig s;
     PProfEnabled := PProfEnabled s; BuildInfo := BuildInfo s;
     SecureCookies := SecureCookies s; LocalCF := LocalCF s;
     AppURL := AppURL s; SessionBackend := SessionBackend s;
     SessionBackendHealthCheck := SessionBackendHealthCheck s;
     SMTPHost := SMTPHost s; SMTPPort := SMTPPort s;
     SMTPUser := SMTPUser s; SMTPPass := SMTPPass s;
     SMTPFrom := SMTPFrom s; TICSecret := TICSecret s |}.

(** [s.UaaURL = v]. *)
Definition set_UaaURL (v : string) (s : Settings) : Settings :=
  {| OAuthConfig := OAuthConfig s; ConsoleAPI := ConsoleAPI s;
     LoginURL := LoginURL s; Sessions := Sessions s;
     StateGenerator := StateGenerator s; UaaURL := v; LogURL := LogURL s;
     BasePath := BasePath s;
     HighPrivilegedOauthConfig := HighPrivilegedOauthConfig s;
     PProfEnabled := PProfEnabled s; BuildInfo := BuildInfo s;
     SecureCookies := SecureCookies s; LocalCF := LocalCF s;
     AppURL := AppURL s; SessionBackend := SessionBackend s;
     SessionBackendHealthCheck := SessionBackendHealthCheck s;
     SMTPHost := SMTPHost s; SMTPPort := SMTPPort s;
     SMTPUser := SMTPUser s; SMTPPass := SMTPPass s;
     SMTPFrom := SMTPFrom s; TICSecret := TICSecret s |}.

(** [s.LogURL = v]. *)
Definition set_LogURL (v : string) (s : Settings) : Settings :=
  {| OAuthConfig := OAuthConfig s; ConsoleAPI := ConsoleAPI s;
     LoginURL := LoginURL s; Sessions := Sessions s;
     StateGenerator := StateGenerator s; UaaURL := UaaURL s; LogURL := v;
     BasePath := BasePath s;
     HighPrivilegedOauthConfig := HighPrivilegedOauthConfig s;
     PProfEnabled := PProfEnabled s; BuildInfo := BuildInfo s;
     SecureCookies := SecureCookies s; LocalCF := LocalCF s;
     AppURL := AppURL s; SessionBackend := SessionBackend s;
     SessionBackendHealthCheck := SessionBackendHealthCheck s;
     SMTPHost := SMTPHost s; SMTPPort := SMTPPort s;
     SMTPUser := SMTPUser s; SMTPPass := SMTPPass s;
     SMTPFrom := SMTPFrom s; TICSecret := TICSecret s |}.

(** [s.BasePath = v]. *)
Definition set_BasePath (v : string) (s : Settings) : Settings :=
  {| OAuthConfig := OAuthConfig s; ConsoleAPI := ConsoleAPI s;
     LoginURL := LoginURL s; Sessions := Sessions s;
     StateGenerator := StateGenerator s; UaaURL := UaaURL s;
     LogURL := LogURL s; BasePath := v;
     HighPrivilegedOauthConfig := HighPrivilegedOauthConfig s;
     PProfEnabled := PProfEnabled s; BuildInfo := BuildInfo s;
     SecureCookies := SecureCookies s; LocalCF := LocalCF s;
     AppURL := AppURL s; SessionBackend := SessionBackend s;
     SessionBackendHealthCheck := SessionBackendHealthCheck s;
     SMTPHost := SMTPHost s; SMTPPort := SMTPPort s;
     SMTPUser := SMTPUser s; SMTPPass := SMTPPass s;
     SMTPFrom := SMTPFrom s; TICSecret := TICSecret s |}.

(** [s.HighPrivilegedOauthConfig = v]. *)
Definition set_HighPrivilegedOauthConfig (v : option clientcredentials.Config) (s : Settings) : Settings :=
  {| OAuthConfig := OAuthConfig s; ConsoleAPI := ConsoleAPI s;
     LoginURL := LoginURL s; Sessions := Sessions s;
     StateGenerator := StateGenerator s; UaaURL := UaaURL s;
     LogURL := LogURL s; BasePath := BasePath s;
     HighPrivilegedOauthConfig := v; PProfEnabled := PProfEnabled s;
     BuildInfo := BuildInfo s; SecureCookies := SecureCookies s;
     LocalCF := LocalCF s; AppURL := AppURL s;
     SessionBackend := SessionBackend s;
     SessionBackendHealthCheck := SessionBackendHealthCheck s;
     SMTPHost := SMTPHost s; SMTPPort := SMTPPort s;
     SMTPUser := SMTPUser s; SMTPPass := SMTPPass s;
     SMTPFrom := SMTPFrom s; TICSecret := TICSecret s |}.

(** [s.PProfEnabled = v]. *)
Definition set_PProfEnabled (v : bool) (s : Settings) : Settings :=
  {| OAuthConfig := OAuthConfig s; ConsoleAPI := ConsoleAPI s;
     LoginURL := LoginURL s; Sessions := Sessions s;
     StateGenerator := StateGenerator s; UaaURL := UaaURL s;
     LogURL := LogURL s; BasePath := BasePath s;
     HighPrivilegedOauthConfig := HighPrivilegedOauthConfig s;
     PProfEnabled := v; BuildInfo := BuildInfo s;
     SecureCookies := SecureCookies s; LocalCF := LocalCF s;
     AppURL := AppURL s; SessionBackend := SessionBackend s;
     SessionBackendHealthCheck := SessionBackendHealthCheck s;
     SMTPHost := SMTPHost s; SMTPPort := SMTPPort s;
     SMTPUser := SMTPUser s; SMTPPass := SMTPPass s;
     SMTPFrom := SMTPFrom s; TICSecret := TICSecret s |}.

(** [s.BuildInfo = v]. *)
Definition set_BuildInfo (v : string) (s : Settings) : Settings :=
  {| OAuthConfig := OAuthConfig s; ConsoleAPI := ConsoleAPI s;
     LoginURL := LoginURL s; Sessions := Sessions s;
     StateGenerator := StateGenerator s; UaaURL := UaaURL s;
     LogURL := LogURL s; BasePath := BasePath s;
     HighPrivilegedOauthConfig := HighPrivilegedOauthConfig s;
     PProfEnabled := PProfEnabled s; BuildInfo := v;
     SecureCookies := SecureCookies s; LocalCF := LocalCF s;
     AppURL := AppURL s; SessionBackend := SessionBackend s;
     SessionBackendHealthCheck := SessionBackendHealthCheck s;
     SMTPHost := SMTPHost s; SMTPPort := SMTPPort s;
     SMTPUser := SMTPUser s; SMTPPass := SMTPPass s;
     SMTPFrom := SMTPFrom s; TICSecret := TICSecret s |}.

(** [s.SecureCookies = v]. *)
Definition set_SecureCookies (v : bool) (s : Settings) : Settings :=
  {| OAuthConfig := OAuthConfig s; ConsoleAPI := ConsoleAPI s;
     LoginURL := LoginURL s; Sessions := Sessions s;
     StateGenerator := StateGenerator s; UaaURL := UaaURL s;
     LogURL := LogURL s; BasePath := BasePath s;
     HighPrivilegedOauthConfig := HighPrivilegedOauthConfig s;
     PProfEnabled := PProfEnabled s; BuildInfo := BuildInfo s;
     SecureCookies := v; LocalCF := LocalCF s; AppURL := AppURL s;
     SessionBackend := SessionBackend s;
     SessionBackendHealthCheck := SessionBackendHealthCheck s;
     SMTPHost := SMTPHost s; SMTPPort := SMTPPort s;
     SMTPUser := SMTPUser s; SMTPPass := SMTPPass s;
     SMTPFrom := SMTPFrom s; TICSecret := TICSecret s |}.

(** [s.LocalCF = v]. *)
Definition set_LocalCF (v : bool) (s : Settings) : Settings :=
  {| OAuthConfig := OAuthConfig s; ConsoleAPI := ConsoleAPI s;
     LoginURL := LoginURL s; Sessions := Sessions s;
     StateGenerator := StateGenerator s; UaaURL := UaaURL s;
     LogURL := LogURL s; BasePath := BasePath s;
     HighPrivilegedOauthConfig := HighPrivilegedOauthConfig s;
     PProfEnabled := PProfEnabled s; BuildInfo := BuildInfo s;
     SecureCookies := SecureCookies s; LocalCF := v; AppURL := AppURL s;
     SessionBackend := SessionBackend s;
     SessionBackendHealthCheck := SessionBackendHealthCheck s;
     SMTPHost := SMTPHost s; SMTPPort := SMTPPort s;
     SMTPUser := SMTPUser s; SMTPPass := SMTPPass s;
     SMTPFrom := SMTPFrom s; TICSecret := TICSecret s |}.

(** [s.AppURL = v]. *)
Definition set_AppURL (v : string) (s : Settings) : Settings :=
  {| OAuthConfig := OAuthConfig s; ConsoleAPI := ConsoleAPI s;
     LoginURL := LoginURL s; Sessions := Sessions s;
     StateGenerator := StateGenerator s; UaaURL := UaaURL s;
     LogURL := LogURL s; BasePath := BasePath s;
     HighPrivilegedOauthConfig := HighPrivilegedOauthConfig s;
     PProfEnabled := PProfEnabled s; BuildInfo := BuildInfo s;
     SecureCookies := SecureCookies s; LocalCF := LocalCF s; AppURL := v;
     SessionBackend := SessionBackend s;
     SessionBackendHealthCheck := SessionBackendHealthCheck s;
     SMTPHost := SMTPHost s; SMTPPort := SMTPPort s;
     SMTPUser := SMTPUser s; SMTPPass := SMTPPass s;
     SMTPFrom := SMTPFrom s; TICSecret := TICSecret s |}.

(** [s.SessionBackend = v]. *)
Definition set_SessionBackend (v : string) (s : Settings) : Settings :=
  {| OAuthConfig := OAuthConfig s; ConsoleAPI := ConsoleAPI s;
     LoginURL := LoginURL s; Sessions := Sessions s;
     StateGenerator := StateGenerator s; UaaURL := UaaURL s;
     LogURL := LogURL s; BasePath := BasePath s;
     HighPrivilegedOauthConfig := HighPrivilegedOauthConfig s;
     PProfEnabled := PProfEnabled s; BuildInfo := BuildInfo s;
     SecureCookies := SecureCookies s; LocalCF := LocalCF s;
     AppURL := AppURL s; SessionBackend := v;
     SessionBackendHealthCheck := SessionBackendHealthCheck s;
     SMTPHost := SMTPHost s; SMTPPort := SMTPPort s;
     SMTPUser := SMTPUser s; SMTPPass := SMTPPass s;
     SMTPFrom := SMTPFrom s; TICSecret := TICSecret s |}.

(** [s.SessionBackendHealthCheck = v]. *)
Definition set_SessionBackendHealthCheck (v : option (ProbeState -> bool)) (s : Settings) : Settings :=
  {| OAuthConfig := OAuthConfig s; ConsoleAPI := ConsoleAPI s;
     LoginURL := LoginURL s; Sessions := Sessions s;
     StateGenerator := StateGenerator s; UaaURL := UaaURL s;
     LogURL := LogURL s; BasePath := BasePath s;
     HighPrivilegedOauthConfig := HighPrivilegedOauthConfig s;
     PProfEnabled := PProfEnabled s; BuildInfo := BuildInfo s;
     SecureCookies := SecureCookies s; LocalCF := LocalCF s;
     AppURL := AppURL s; SessionBackend := SessionBackend s;
     SessionBackendHealthCheck := v; SMTPHost := SMTPHost s;
     SMTPPort := SMTPPort s; SMTPUser := SMTPUser s;
     SMTPPass := SMTPPass s; SMTPFrom := SMTPFrom s;
     TICSecret := TICSecret s |}.

(** [s.SMTPHost = v]. *)
Definition set_SMTPHost (v : string) (s : Settings) : Settings :=
  {| OAuthConfig := OAuthConfig s; ConsoleAPI := ConsoleAPI s;
     LoginURL := LoginURL s; Sessions := Sessions s;
     StateGenerator := StateGenerator s; UaaURL := UaaURL s;
     LogURL := LogURL s; BasePath := BasePath s;
     HighPrivilegedOauthConfig := HighPrivilegedOauthConfig s;
     PProfEnabled := PProfEnabled s; BuildInfo := BuildInfo s;
     SecureCookies := SecureCookies s; LocalCF := LocalCF s;
     AppURL := AppURL s; SessionBackend := SessionBackend s;
     SessionBackendHealthCheck := SessionBackendHealthCheck s;
     SMTPHost := v; SMTPPort := SMTPPort s; SMTPUser := SMTPUser s;
     SMTPPass := SMTPPass s; SMTPFrom := SMTPFrom s;
     TICSecret := TICSecret s |}.

(** [s.SMTPPort = v]. *)
Definition set_SMTPPort (v : string) (s : Settings) : Settings :=
  {| OAuthConfig := OAuthConfig s; ConsoleAPI := ConsoleAPI s;
     LoginURL := LoginURL s; Sessions := Sessions s;
     StateGenerator := StateGenerator s; UaaURL := UaaURL s;
     LogURL := LogURL s; BasePath := BasePath s;
     HighPrivilegedOauthConfig := HighPrivilegedOauthConfig s;
     PProfEnabled := PProfEnabled s; BuildInfo := BuildInfo s;
     SecureCookies := SecureCookies s; LocalCF := LocalCF s;
     AppURL := AppURL s; SessionBackend := SessionBackend s;
     SessionBackendHealthCheck := SessionBackendHealthCheck s;
     SMTPHost := SMTPHost s; SMTPPort := v; SMTPUser := SMTPUser s;
     SMTPPass := SMTPPass s; SMTPFrom := SMTPFrom s;
     TICSecret := TICSecret s |}.

(** [s.SMTPUser = v]. *)
Definition set_SMTPUser (v : string) (s : Settings) : Settings :=
  {| OAuthConfig := OAuthConfig s; ConsoleAPI := ConsoleAPI s;
     LoginURL := LoginURL s; Sessions := Sessions s;
     StateGenerator := StateGenerator s; UaaURL := UaaURL s;
     LogURL := LogURL s; BasePath := BasePath s;
     HighPrivilegedOauthConfig := HighPrivilegedOauthConfig s;
     PProfEnabled := PProfEnabled s; BuildInfo := BuildInfo s;
     SecureCookies := SecureCookies s; LocalCF := LocalCF s;
     AppURL := AppURL s; SessionBackend := SessionBackend s;
     SessionBackendHealthCheck := SessionBackendHealthCheck s;
     SMTPHost := SMTPHost s; SMTPPort := SMTPPort s; SMTPUser := v;
     SMTPPass := SMTPPass s; SMTPFrom := SMTPFrom s;
     TICSecret := TICSecret s |}.

(** [s.SMTPPass = v]. *)
Definition set_SMTPPass (v : string) (s : Settings) : Settings :=
  {| OAuthConfig := OAuthConfig s; ConsoleAPI := ConsoleAPI s;
     LoginURL := LoginURL s; Sessions := Sessions s;
     StateGenerator := StateGenerator s; UaaURL := UaaURL s;
     LogURL := LogURL s; BasePath := BasePath s;
     HighPrivilegedOauthConfig := HighPrivilegedOauthConfig s;
     PProfEnabled := PProfEnabled s; BuildInfo := BuildInfo s;
     SecureCookies := SecureCookies s; LocalCF := LocalCF s;
     AppURL := AppURL s; SessionBackend := SessionBackend s;
     SessionBackendHealthCheck := SessionBackendHealthCheck s;
     SMTPHost := SMTPHost s; SMTPPort := SMTPPort s;
     SMTPUser := SMTPUser s; SMTPPass := v; SMTPFrom := SMTPFrom s;
     TICSecret := TICSecret s |}.

(** [s.SMTPFrom = v]. *)
Definition set_SMTPFrom (v : string) (s : Settings) : Settings :=
  {| OAuthConfig := OAuthConfig s; ConsoleAPI := ConsoleAPI s;
     LoginURL := LoginURL s; Sessions := Sessions s;
     StateGenerator := StateGenerator s; UaaURL := UaaURL s;
     LogURL := LogURL s; BasePath := BasePath s;
     HighPrivilegedOauthConfig := HighPrivilegedOauthConfig s;
     PProfEnabled := PProfEnabled s; BuildInfo := BuildInfo s;
     SecureCookies := SecureCookies s; LocalCF := LocalCF s;
     AppURL := AppURL s; SessionBackend := SessionBackend s;
     SessionBackendHealthCheck := SessionBackendHealthCheck s;
     SMTPHost := SMTPHost s; SMTPPort := SMTPPort s;
     SMTPUser := SMTPUser s; SMTPPass := SMTPPass s; SMTPFrom := v;
     TICSecret := TICSecret s |}.

(** [s.TICSecret = v]. *)
Definition set_TICSecret (v : string) (s : Settings) : Settings :=
  {| OAuthConfig := OAuthConfig s; ConsoleAPI := ConsoleAPI s;
     LoginURL := LoginURL s; Sessions := Sessions s;
     StateGenerator := StateGenerator s; UaaURL := UaaURL s;
     LogURL := LogURL s; BasePath := BasePath s;
     HighPrivilegedOauthConfig := HighPrivilegedOauthConfig s;
     PProfEnabled := PProfEnabled s; BuildInfo := BuildInfo s;
     SecureCookies := SecureCookies s; LocalCF := LocalCF s;
     AppURL := AppURL s; SessionBackend := SessionBackend s;
     SessionBackendHealthCheck := SessionBackendHealthCheck s;
     SMTPHost := SMTPHost s; SMTPPort := SMTPPort s;
     SMTPUser := SMTPUser s; SMTPPass := SMTPPass s;
     SMTPFrom := SMTPFrom s; TICSecret := v |}.

(** ** The environment accessor *)

(** Modelled from the spec: the type [EnvVars] and its methods [Get],
    [MustGet] and [BoolGet] are declared in a file of package [helpers]
    that is not among the sources. Section 4.1: typed lookups over the
    process environment; a variable is absent or holds a string. *)
Definition EnvVars : Type := EnvVarName -> option string.

(** Modelled from the spec: [Get(key, default)] returns the environment
    value or [default] if absent. *)
Definition Get (el : EnvVars) (name : EnvVarName) (defaultValue : string)
  : string :=
  match el name with
  | Some v => v
  | None => defaultValue
  end.

(** The spellings of a boolean that Go's [strconv.ParseBool] accepts. *)
Definition ParseBool (str : string) : option bool :=
  if existsb (String.eqb str) ["1"; "t"; "T"; "TRUE"; "true"; "True"]
  then Some true
  else if existsb (String.eqb str) ["0"; "f"; "F"; "FALSE"; "false"; "False"]
  then Some false
  else None.

(** Modelled from the spec: [BoolGet(key)] parses a boolean-ish string,
    absent or unparseable treated as false, without failing. *)
Definition BoolGet (el : EnvVars) (name : EnvVarName) : bool :=
  match el name with
  | Some v => match ParseBool v with
              | Some b => b
              | None => false
              end
  | None => false
  end.

(** The environment [el] without the variable [name]. *)
Definition unsetenv (name : EnvVarName) (el : EnvVars) : EnvVars :=
  fun k => if EnvVarName_eqb k name then None else el k.

(** ** Statements that may return or panic *)

(** A value given to [panic]. *)
Inductive PanicValue : Type :=
| PanicMissingEnvVar (name : EnvVarName)
    (** a [*ErrMissingEnvVar], as [MustGet] raises it *)
| PanicOther (v : string).
    (** a value of any other dynamic type *)

(** How a statement of [InitSettings] ends. *)
Inductive Flow (A : Type) : Type :=
| Next (a : A)                      (** control goes on, with a value *)
| Return (retErr : option error)    (** a [return] statement ran *)
| Panic (r : PanicValue).           (** a panic unwinds the function *)

Arguments Next {A} a.
Arguments Return {A} retErr.
Arguments Panic {A} r.

(** An object that the bootstrap constructs, as it is when constructed. *)
Inductive Event : Type :=
| NewPool (pool : redis.Pool)
    (** [&redis.Pool{...}] *)
| NewRediStore (store : redistore.RediStore)
    (** [redistore.NewRediStoreWithPool] *)
| NewFilesystemStore (store : sessions.FilesystemStore)
    (** [sessions.NewFilesystemStore] *)
| GobRegister (type : string).
    (** [gob.Register] *)

(** What a call of [InitSettings] acts on: the [Settings] behind the
    receiver [s], which the caller holds, and the objects constructed so
    far, oldest first. *)
Record Machine : Type := mkMachine {
  recv : Settings;
  events : list Event
}.

Definition Exec (A : Type) : Type := Machine -> Machine * Flow A.

Definition ret {A : Type} (a : A) : Exec A := fun m => (m, Next a).

Definition bind {A B : Type} (c : Exec A) (k : A -> Exec B) : Exec B :=
  fun m =>
    match c m with
    | (m', Next a) => k a m'
    | (m', Return retErr) => (m', Return retErr)
    | (m', Panic r) => (m', Panic r)
    end.

Declare Scope exec_scope.
Delimit Scope exec_scope with exec.
Notation "x <- c ;; k" := (bind c (fun x => k))
  (at level 100, c at next level, right associativity) : exec_scope.
Notation "c ;; k" := (bind c (fun _ => k))
  (at level 100, right associativity) : exec_scope.

(** [return retErr]. *)
Definition return_ {A : Type} (retErr : option error) : Exec A :=
  fun m => (m, Return retErr).

(** An assignment to a field of [s]. *)
Definition assign (f : Settings -> Settings) : Exec unit :=
  fun m => (mkMachine (f (recv m)) (events m), Next tt).

(** A read of [s]. *)
Definition self : Exec Settings := fun m => (m, Next (recv m)).

(** The construction of an object. *)
Definition construct (e : Event) : Exec unit :=
  fun m => (mkMachine (recv m) (events m ++ [e]), Next tt).

(** Modelled from the spec: [MustGet(key)] returns the value or fails
    with [MissingRequiredConfig(key)], through the fail-fast channel:
    it panics with a [*ErrMissingEnvVar]. *)
Definition MustGet (el : EnvVars) (name : EnvVarName) : Exec string :=
  fun m =>
    match el name with
    | Some v => (m, Next v)
    | None => (m, Panic (PanicMissingEnvVar name))
    end.

(** ** [InitSettings] *)

(** The options of the dial: 10 seconds each. *)
Definition dialOptions : list redis.DialOption :=
  [redis.DialConnectTimeout (10 * Second)%Z;
   redis.DialWriteTimeout (10 * Second)%Z;
   redis.DialReadTimeout (10 * Second)%Z].

(** The closure [Dial] of the pool (lines 156 to 175). [err] is the
    variable of [InitSettings] that the closure tests. *)
Definition redisPool_Dial (address password : string) (err : option error)
    (net : redis.Network)
  : list redis.Call * (option redis.Conn * option error) :=
  match net "tcp" address dialOptions with
  | inl dialErr =>
      ([redis.CallDial "tcp" address dialOptions], (None, Some dialErr))
  | inr c =>
      if negb (String.eqb password "") then
        let authErr := redis.Do c "AUTH" [password] in
        if notNil err then
          ([redis.CallDial "tcp" address dialOptions;
            redis.CallDo (redis.conn_id c) "AUTH" [password];
            redis.CallClose (redis.conn_id c)],
           (None, authErr))
        else
          ([redis.CallDial "tcp" address dialOptions;
            redis.CallDo (redis.conn_id c) "AUTH" [password]],
           (Some c, None))
      else ([redis.CallDial "tcp" address dialOptions], (Some c, None))
  end.

(** The closure [TestOnBorrow] of the pool (lines 152 to 155). *)
Definition redisPool_TestOnBorrow (c : redis.Conn) (t : Z) : option error :=
  redis.Do c "PING" [].

(** The pool of lines 149 to 176. *)
Definition newRedisPool (address password : string) : redis.Pool :=
  {| redis.MaxIdle := 10;
     redis.IdleTimeout := (240 * Second)%Z;
     redis.TestOnBorrow := redisPool_TestOnBorrow;
     redis.Dial := redisPool_Dial address password |}.

(** The health check of the redis backend (lines 193 to 202): a PING on
    the connection that [redisPool.Get()] hands out; the line it logs on
    failure is not modelled. *)
Definition redisHealthCheck (redisPool : redis.Pool) (st : ProbeState) : bool :=
  match redis.Do (pool_Get st) "PING" [] with
  | Some _ => false
  | None => true
  end.

(** The health check of the file backend (line 216). *)
Definition fileHealthCheck (st : ProbeState) : bool := true.

(** The options of the session cookie (lines 183 to 188 and 206 to 213). *)
Definition cookieOptions (secure : bool) : sessions.Options :=
  {| sessions.Path := "/"; sessions.Domain := "";
     sessions.MaxAge := expirationConstant;
     sessions.Secure := secure; sessions.HttpOnly := true |}.

(** The [switch] of lines 142 to 217. [environ] is the process
    environment and [ping] the error of the first round trip of the new
    redis store. *)
Definition initSessions (envVars : EnvVars) (env : option cfenv.App)
    (environ : gmap string string) (ping : option error) : Exec unit :=
  (if String.eqb (Get envVars SessionBackendEnvVar "") "redis" then
     let '(address, password, err) := getRedisSettings environ env in
     match err with
     | Some e => return_ (Some e)
     | None =>
         let redisPool := newRedisPool address password in
         construct (NewPool redisPool) ;;
         key <- MustGet envVars SessionKeyEnvVar ;;
         let '(store, err) := redistore.NewRediStoreWithPool ping redisPool key in
         construct (NewRediStore store) ;;
         match err with
         | Some e => return_ (Some e)
         | None =>
             s <- self ;;
             let store := redistore.SetMaxLength (4096 * 4) store in
             let store :=
               redistore.rs_set_Options (cookieOptions (SecureCookies s)) store in
             assign (set_Sessions (Some (RediStore_ store))) ;;
             assign (set_SessionBackend "redis") ;;
             assign (set_SessionBackendHealthCheck
                       (Some (redisHealthCheck redisPool)))
         end
     end
   else
     key <- MustGet envVars SessionKeyEnvVar ;;
     let store := sessions.NewFilesystemStore "" key in
     construct (NewFilesystemStore store) ;;
     s <- self ;;
     let store := sessions.MaxLength (4096 * 4) store in
     let store := sessions.fs_set_Options (cookieOptions (SecureCookies s)) store in
     assign (set_Sessions (Some (FilesystemStore_ store))) ;;
     assign (set_SessionBackend "file") ;;
     assign (set_SessionBackendHealthCheck (Some fileHealthCheck)))%exec.

(** The body of [InitSettings] (lines 109 to 235). *)
Definition InitSettings_body (envVars : EnvVars) (env : option cfenv.App)
    (environ : gmap string string) (ping : option error) : Exec unit :=
  (assign (set_BasePath (Get envVars BasePathEnvVar "")) ;;
   v <- MustGet envVars HostnameEnvVar ;; assign (set_AppURL v) ;;
   v <- MustGet envVars APIURLEnvVar ;; assign (set_ConsoleAPI v) ;;
   v <- MustGet envVars LoginURLEnvVar ;; assign (set_LoginURL v) ;;
   v <- MustGet envVars UAAURLEnvVar ;; assign (set_UaaURL v) ;;
   v <- MustGet envVars LogURLEnvVar ;; assign (set_LogURL v) ;;
   assign (set_PProfEnabled (BoolGet envVars PProfEnabledEnvVar)) ;;
   assign (set_BuildInfo (Get envVars BuildInfoEnvVar "developer-build")) ;;
   assign (set_LocalCF (BoolGet envVars LocalCFEnvVar)) ;;
   assign (set_SecureCookies (BoolGet envVars SecureCookiesEnvVar)) ;;
   s <- self ;;
   (if negb (LocalCF s) && negb (SecureCookies s) then
      return_ (Some (errorString
        "cannot run with insecure cookies when targeting a production CF environment"))
    else ret tt) ;;
   clientID <- MustGet envVars ClientIDEnvVar ;;
   clientSecret <- MustGet envVars ClientSecretEnvVar ;;
   s <- self ;;
   loginURL <- MustGet envVars LoginURLEnvVar ;;
   uaaURL <- MustGet envVars UAAURLEnvVar ;;
   assign (set_OAuthConfig (Some
     {| oauth2.ClientID := clientID;
        oauth2.ClientSecret := clientSecret;
        oauth2.RedirectURL := AppURL s +:+ "/oauth2callback";
        oauth2.Scopes := ["cloud_controller.read"; "cloud_controller.write";
                          "cloud_controller.admin"; "scim.read"; "openid"];
        oauth2.Endpoint_ :=
          {| oauth2.AuthURL := loginURL +:+ "/oauth/authorize";
             oauth2.TokenURL := uaaURL +:+ "/oauth/token" |} |})) ;;
   assign (set_StateGenerator (Some (GenerateRandomString_closure 32))) ;;
   initSessions envVars env environ ping ;;
   construct (GobRegister "oauth2.Token") ;;
   clientID <- MustGet envVars ClientIDEnvVar ;;
   clientSecret <- MustGet envVars ClientSecretEnvVar ;;
   uaaURL <- MustGet envVars UAAURLEnvVar ;;
   assign (set_HighPrivilegedOauthConfig (Some
     {| clientcredentials.ClientID := clientID;
        clientcredentials.ClientSecret := clientSecret;
        clientcredentials.Scopes :=
          ["scim.invite"; "cloud_controller.admin"; "scim.read"];
        clientcredentials.TokenURL := uaaURL +:+ "/oauth/token" |})) ;;
   v <- MustGet envVars SMTPFromEnvVar ;; assign (set_SMTPFrom v) ;;
   v <- MustGet envVars SMTPHostEnvVar ;; assign (set_SMTPHost v) ;;
   assign (set_SMTPPass (Get envVars SMTPPassEnvVar "")) ;;
   assign (set_SMTPPort (Get envVars SMTPPortEnvVar "")) ;;
   assign (set_SMTPUser (Get envVars SMTPUserEnvVar "")) ;;
   assign (set_TICSecret (Get envVars TICSecretEnvVar "")) ;;
   return_ None)%exec.

(** How a call of [InitSettings] ends for its caller. *)
Inductive Outcome : Type :=
| Returned (retErr : option error)   (** it returns [retErr] *)
| Panicked (r : PanicValue).         (** the panic [r] escapes it *)

(** The deferred function of [InitSettings] (lines 94 to 107), applied
    to the way the body ended: [recover()] yields the panic value, which
    becomes the returned error when it is a [*ErrMissingEnvVar] and is
    raised again otherwise. *)
Definition InitSettings_deferred (body : Flow unit) : Outcome :=
  match body with
  | Panic r =>
      match r with
      | PanicMissingEnvVar name => Returned (Some (ErrMissingEnvVar name))
      | _ => Panicked r
      end
  | Return retErr => Returned retErr
  | Next _ => Returned None
  end.

(** [s.InitSettings(envVars, env)]: [s] is the [Settings] behind the
    receiver before the call; the result holds it after the call, the
    objects constructed, and the outcome. *)
Definition InitSettings (s : Settings) (envVars : EnvVars)
    (env : option cfenv.App) (environ : gmap string string)
    (ping : option error) : Machine * Outcome :=
  let '(m, body) :=
    InitSettings_body envVars env environ ping (mkMachine s []) in
  (m, InitSettings_deferred body).

(** A [Settings] whose fields hold their zero values: [helpers.Settings{}]. *)
Definition zeroSettings : Settings :=
  {| OAuthConfig := None; ConsoleAPI := ""; LoginURL := ""; Sessions := None;
     StateGenerator := None; UaaURL := ""; LogURL := ""; BasePath := "";
     HighPrivilegedOauthConfig := None; PProfEnabled := false;
     BuildInfo := ""; SecureCookies := false; LocalCF := false; AppURL := "";
     SessionBackend := ""; SessionBackendHealthCheck := None; SMTPHost := "";
     SMTPPort := ""; SMTPUser := ""; SMTPPass := ""; SMTPFrom := "";
     TICSecret := "" |}.

(** ** Notions that the statements use *)

(** The error of the guard of lines 121 to 123, the specification's
    [InvalidConfigCombination]. *)
Definition insecureCookiesError : error :=
  errorString
    "cannot run with insecure cookies when targeting a production CF environment".

(** The first of [names] that is absent from [el]. *)
Definition firstMissing (el : EnvVars) (names : list EnvVarName)
  : option EnvVarName :=
  List.find (fun k => match el k with
                      | None => true
                      | Some _ => false
                      end) names.

(** The variables that [InitSettings] reads with [MustGet] before the
    guard of the cookies. *)
Definition beforeGuard : list EnvVarName :=
  [HostnameEnvVar; APIURLEnvVar; LoginURLEnvVar; UAAURLEnvVar; LogURLEnvVar].

(** The variables that [InitSettings] reads with [MustGet] before it
    initializes the sessions. *)
Definition beforeSessions : list EnvVarName :=
  beforeGuard ++ [ClientIDEnvVar; ClientSecretEnvVar].

(** The variables that [InitSettings] reads with [MustGet] after it has
    initialized the sessions. *)
Definition afterSessions : list EnvVarName :=
  [SMTPFromEnvVar; SMTPHostEnvVar].

(** The required variables: those that [InitSettings] reads with
    [MustGet]. *)
Definition requiredFields : list EnvVarName :=
  beforeSessions ++ [SessionKeyEnvVar] ++ afterSessions.

(** A byte that stands for itself everywhere in a URI: a letter, a
    digit, or one of [-._~!$&'()*+,;=] (RFC 3986: unreserved or
    sub-delimiter). *)
Definition plainByte (c : ascii) : bool :=
  isAlnum c || oneOf "-._~!$&'()*+,;=" c.

(** A byte of a scheme after its first letter. *)
Definition schemeByte (c : ascii) : bool :=
  isAlpha c || isDigit c || oneOf "+-." c.

(** A scheme: a letter, then letters, digits and [+-.]. *)
Definition validScheme (s : string) : bool :=
  match s with
  | EmptyString => false
  | String c s' => isAlpha c && allBytes schemeByte s'
  end.

(** A byte that [unescape] leaves alone in the mode [mode]: it is not a
    percent sign, and in a host it is not a byte that must be escaped. *)
Definition passesUnescape (mode : url.encoding) (c : ascii) : bool :=
  negb (Ascii.eqb c "%")
  && negb ((url.encoding_eqb mode url.encodeHost
            || url.encoding_eqb mode url.encodeZone)
           && (byte_val c <? 128)%N && url.shouldEscape c url.encodeHost).

(** A byte of a connection URI made of a scheme, plain bytes, digits and
    the delimiters [:], [/] and [@]. *)
Definition partByte (c : ascii) : bool :=
  plainByte c || schemeByte c || oneOf ":/@" c.

(** [host:port]. *)
Definition hostPort (host port : string) : string :=
  host +:+ ":" +:+ port.

(** [:password@host:port]. *)
Definition uriAuthority (password host port : string) : string :=
  ":" +:+ password +:+ "@" +:+ hostPort host port.

(** The connection URI [scheme://:password@host:port]. *)
Definition connectionURI (scheme password host port : string) : string :=
  scheme +:+ "://" +:+ uriAuthority password host port.

(** The file store that [InitSettings] leaves in [Sessions] for the key
    [key] and the flag [secure]. *)
Definition fileStore (key : string) (secure : bool) : sessions.FilesystemStore :=
  {| sessions.fs_keyPairs := key;
     sessions.fs_Options := cookieOptions secure;
     sessions.fs_path := "";
     sessions.fs_maxLength := 16384 |}.

(** What the file backend leaves in the caller's [Settings]: the store
    for the session key, capped at 16 KiB, with the cookie options of the
    bootstrap and the flag [SecureCookies], the name ["file"], and the
    health check of the file backend. *)
Definition fileBackendInstalled (envVars : EnvVars) (m : Machine) : Prop :=
  exists key,
    envVars SessionKeyEnvVar = Some key
    /\ Sessions (recv m)
       = Some (FilesystemStore_ (fileStore key (SecureCookies (recv m))))
    /\ SecureCookies (recv m) = BoolGet envVars SecureCookiesEnvVar
    /\ SessionBackend (recv m) = "file"
    /\ SessionBackendHealthCheck (recv m) = Some fileHealthCheck.

(** The credentials of [service] hold a string under [key]. *)
Definition hasString (service : cfenv.Service) (key : string) : bool :=
  snd (assertString (cfenv.Credentials service !! key)).

(** ** Inputs of the examples *)

(** An environment in which no variable is set. *)
Definition emptyEnvVars : EnvVars := fun _ => None.

(** An environment that sets what a local development target needs, and
    leaves both flags unset. *)
Definition insecureEnvVars : EnvVars :=
  fun k =>
    match k with
    | HostnameEnvVar => Some "https://console.example.com"
    | APIURLEnvVar => Some "https://api.example.com"
    | LoginURLEnvVar => Some "https://login.example.com"
    | UAAURLEnvVar => Some "https://uaa.example.com"
    | LogURLEnvVar => Some "https://loggregator.example.com"
    | ClientIDEnvVar => Some "console"
    | ClientSecretEnvVar => Some "client-secret"
    | SessionKeyEnvVar => Some "session-key"
    | SMTPFromEnvVar => Some "no-reply@example.com"
    | SMTPHostEnvVar => Some "smtp.example.com"
    | _ => None
    end.

(** An environment that sets the host name alone. *)
Definition hostOnlyEnvVars : EnvVars :=
  fun k =>
    match k with
    | HostnameEnvVar => Some "https://console.example.com"
    | _ => None
    end.

(** An environment on which the bootstrap succeeds, with the file
    backend and a local target. *)
Definition localEnvVars : EnvVars :=
  fun k =>
    match k with
    | LocalCFEnvVar => Some "true"
    | _ => insecureEnvVars k
    end.

(** An environment that selects the redis backend. *)
Definition redisEnvVars : EnvVars :=
  fun k =>
    match k with
    | SessionBackendEnvVar => Some "redis"
    | _ => localEnvVars k
    end.

(** A process environment that gives the connection URI directly. *)
Definition redisEnviron : gmap string string :=
  {[ "REDIS_URI" := "redis://:secret@cachehost:6380" ]}.

(** A connection to a server that has no password set: it refuses AUTH
    and answers every other command. *)
Definition openServerConn : redis.Conn :=
  {| redis.conn_id := 1;
     redis.Do := fun cmd _ =>
       if String.eqb cmd "AUTH"
       then Some (errorString "ERR Client sent AUTH, but no password is set")
       else None |}.

(** A network on which every dial reaches that server. *)
Definition openServerNetwork : redis.Network :=
  fun _ _ _ => inr openServerConn.

(** A binding with one redis service that gives its URI. *)
Definition uriBinding : cfenv.App :=
  cfenv.mkApp
    [cfenv.mkService "session-cache" "redis28" ["redis"]
       {[ "uri" := cfenv.VString "redis://:secret@cachehost:6380" ]}].

(** A binding whose redis service gives a host name and a port, and
    neither a URI nor a password. *)
Definition partsBinding : cfenv.App :=
  cfenv.mkApp
    [cfenv.mkService "session-cache" "redis28" ["redis"]
       {[ "hostname" := cfenv.VString "cachehost";
          "port" := cfenv.VString "6380" ]}].

(** ** [CreateContext] *)

(** Package [crypto/tls]: of [tls.Config], the field that the code
    sets. *)
Module tls.

Record Config : Type := mkConfig {
  InsecureSkipVerify : bool
}.

End tls.

(** Package [net/http]: of [http.Transport] and [http.Client], the
    field that the code sets and, for the fields it leaves alone, the
    timeout. A [nil] transport is [None]. *)
Module http.

Record Transport : Type := mkTransport {
  TLSClientConfig : option tls.Config
}.

Record Client : Type := mkClient {
  Transport_ : option Transport;
  Timeout : Duration
}.

End http.

(** Package [golang.org/x/net/context]. *)
Module netcontext.

(** A key of a context: [oauth2.HTTPClient], or another one. *)
Inductive Key : Type :=
| oauth2_HTTPClient
| OtherKey (name : string).

Definition Key_eqb (a b : Key) : bool :=
  match a, b with
  | oauth2_HTTPClient, oauth2_HTTPClient => true
  | OtherKey x, OtherKey y => String.eqb x y
  | _, _ => false
  end.

(** A value of a context: the code stores the pointer
    [http.DefaultClient]. *)
Inductive Val : Type :=
| DefaultClientPointer.

(** [context.Context]. *)
Inductive Context : Type :=
| TODO                                                (** [context.TODO()] *)
| WithValue (parent : Context) (key : Key) (val : Val).
    (** [context.WithValue(parent, key, val)] *)

(** [ctx.Value(key)]. *)
Fixpoint Value (ctx : Context) (key : Key) : option Val :=
  match ctx with
  | TODO => None
  | WithValue parent k v => if Key_eqb k key then Some v else Value parent key
  end.

End netcontext.

(** [s.CreateContext()] (lines 77 to 89). [DefaultClient] is the client
    behind the pointer [http.DefaultClient], which every user of the
    default client in the process shares; the result holds the context
    and that client after the call. *)
Definition CreateContext (s : Settings) (DefaultClient : http.Client)
  : netcontext.Context * http.Client :=
  let ctx := netcontext.TODO in
  if LocalCF s then
    let DefaultClient :=
      {| http.Transport_ :=
           Some {| http.TLSClientConfig :=
                     Some {| tls.InsecureSkipVerify := true |} |};
         http.Timeout := http.Timeout DefaultClient |} in
    (netcontext.WithValue ctx netcontext.oauth2_HTTPClient
       netcontext.DefaultClientPointer,
     DefaultClient)
  else (ctx, DefaultClient).

(** ** The deployment script

    The script of the continuous integration that deploys the
    application, from its choice of a target on (lines 22 to 79). The
    commands it runs before, and the four [cf] commands of [deploy], act
    on the outside world; the model keeps the values they are given. *)
Module deploy.

(** The value of the shell variable [name]: empty when it is unset. *)
Definition var (env : gmap string string) (name : string) : string :=
  default EmptyString (env !! name).

(** The rest of [s] after its longest run of digits. *)
Fixpoint skipDigits (s : string) : string :=
  match s with
  | EmptyString => EmptyString
  | String c s' => if isDigit c then skipDigits s' else s
  end.

(** One or more digits at the start of [s]: the rest of [s] after
    them. *)
Definition digits (s : string) : option string :=
  match s with
  | EmptyString => None
  | String c s' => if isDigit c then Some (skipDigits s') else None
  end.

(** A dot at the start of [s]: the rest of [s] after it. *)
Definition dot (s : string) : option string :=
  match s with
  | EmptyString => None
  | String c s' => if Ascii.eqb c "." then Some s' else None
  end.

(** The test of line 22, the variable [CIRCLE_TAG] against the regular
    expression [^[0-9]+\.[0-9]+\.[0-9]+(-[A-Za-z0-9-]+)?]. The
    expression is anchored at the start only and its last group is
    optional, so the test holds as soon as the three runs of digits and
    the two dots are found. *)
Definition versionTag (tag : string) : bool :=
  match digits tag with
  | Some r1 =>
      match dot r1 with
      | Some r2 =>
          match digits r2 with
          | Some r3 =>
              match dot r3 with
              | Some r4 =>
                  match digits r4 with
                  | Some _ => true
                  | None => false
                  end
              | None => false
              end
          | None => false
          end
      | None => false
      end
  | None => false
  end.

(** The variables that the first choice sets. *)
Record Target : Type := mkTarget {
  CF_MANIFEST : string;
  CF_SPACE : string;
  CF_APP : string
}.

(** The four arguments of the call of [deploy], and the variables that
    [deploy] reads. *)
Record Deploy : Type := mkDeploy {
  manifest : string;
  org : string;
  space : string;
  app : string;
  CF_API : string;
  CF_USERNAME : string;
  CF_PASSWORD : string
}.

(** How the script ends: [exit status] after a message, or the call of
    [deploy]. *)
Inductive Outcome : Type :=
| Exit (status : Z) (message : string)
| Deployed (call : Deploy).

(** Lines 22 to 40: the manifest, the space and the application. *)
Definition chooseTarget (env : gmap string string) : string + Target :=
  if versionTag (var env "CIRCLE_TAG") then
    inr (mkTarget "manifest-prod.yml" "dashboard-prod" "cg-dashboard")
  else if String.eqb (var env "CIRCLE_BRANCH") "master" then
    inr (mkTarget "manifest-staging.yml" "dashboard-stage"
           "cg-dashboard-staging")
  else if String.eqb (var env "CIRCLE_BRANCH") "demo" then
    inr (mkTarget "manifest-demo.yml" "dashboard-stage" "cg-dashboard-demo")
  else inl "Unknown environment, quitting.".

(** Lines 46 to 57: the credentials of the deployer of the space. *)
Definition chooseCredentials (env : gmap string string) (target : string)
  : string + (string * string) :=
  if String.eqb target "dashboard-prod" then
    inr (var env "CF_USERNAME_PROD_SPACE", var env "CF_PASSWORD_PROD_SPACE")
  else if String.eqb target "dashboard-stage" then
    inr (var env "CF_USERNAME_STAGE_SPACE", var env "CF_PASSWORD_STAGE_SPACE")
  else
    inl ("Unknown space. Do not know how to deploy " +:+ target +:+ ".").

(** Lines 22 to 79. *)
Definition script (env : gmap string string) : Outcome :=
  match chooseTarget env with
  | inl message => Exit 1 message
  | inr target =>
      match chooseCredentials env (CF_SPACE target) with
      | inl message => Exit 1 message
      | inr (username, password) =>
          Deployed
            {| manifest := "manifests/" +:+ CF_MANIFEST target;
               org := var env "CF_ORGANIZATION";
               space := CF_SPACE target;
               app := CF_APP target;
               CF_API := var env "CF_API";
               CF_USERNAME := username;
               CF_PASSWORD := password |}
      end
  end.

End deploy.


(** ** Further notions that the statements use *)

(** The variable [name] is set in [el]. *)
Definition isPresent (el : EnvVars) (name : EnvVarName) : bool :=
  match el name with
  | Some _ => true
  | None => false
  end.

(** Every variable of [names] is set in [el]. *)
Definition allPresent (el : EnvVars) (names : list EnvVarName) : bool :=
  forallb (isPresent el) names.

(** The selector of the session backend is ["redis"]. *)
Definition redisSelected (el : EnvVars) : bool :=
  String.eqb (Get el SessionBackendEnvVar "") "redis".

(** The session backend can be built: with the redis backend, the
    resolver returns no error and the first round trip of the store
    succeeds; the file backend needs nothing. *)
Definition backendReady (el : EnvVars) (env : option cfenv.App)
    (environ : gmap string string) (ping : option error) : bool :=
  if redisSelected el
  then negb (notNil (snd (getRedisSettings environ env))) && negb (notNil ping)
  else true.

(** The redis store that [InitSettings] leaves in [Sessions] for the
    pool [pool], the key [key] and the flag [secure]. *)
Definition redisStore (pool : redis.Pool) (key : string) (secure : bool)
  : redistore.RediStore :=
  {| redistore.rs_Pool := pool;
     redistore.rs_keyPairs := key;
     redistore.rs_Options := cookieOptions secure;
     redistore.rs_DefaultMaxAge := 60 * 20;
     redistore.rs_maxLength := 16384;
     redistore.rs_keyPrefix := "session_" |}.



(** The client verifies no certificate. *)
Definition skipsVerification (c : http.Client) : bool :=
  match http.Transport_ c with
  | Some t => match http.TLSClientConfig t with
              | Some cfg => tls.InsecureSkipVerify cfg
              | None => false
              end
  | None => false
  end.

(** The URI [scheme://authority]. *)
Definition schemeAuthorityURI (scheme authority : string) : string :=
  scheme +:+ "://" +:+ authority.

(** A run of digits that is not empty. *)
Definition digitRun (s : string) : bool :=
  negb (String.eqb s "") && allBytes isDigit s.

(** ** Further inputs of the examples *)

(** A [Settings] that an earlier use has filled. *)
Definition usedSettings : Settings :=
  set_BasePath "/srv/console" (set_TICSecret "old-secret"
    (set_SessionBackend "file" zeroSettings)).

(** A process environment whose connection URI does not parse. *)
Definition brokenEnviron : gmap string string :=
  {[ "REDIS_URI" := "redis://cachehost:6380/%zz" ]}.

(** The error of [url.Parse] on that URI. *)
Definition brokenURIError : error :=
  url_Error "parse" "redis://cachehost:6380/%zz" (EscapeError "%zz").

(** The error of a store that cannot reach its server. *)
Definition connectionRefused : error :=
  errorString "dial tcp: connection refused".

(** A redis service that gives the three legacy credentials. *)
Definition legacyService : cfenv.Service :=
  cfenv.mkService "session-cache" "redis28" ["redis"]
    {[ "hostname" := cfenv.VString "cachehost";
       "port" := cfenv.VString "6380";
       "password" := cfenv.VString "secret" ]}.

(** A binding whose only service is a database. *)
Definition databaseBinding : cfenv.App :=
  cfenv.mkApp
    [cfenv.mkService "console-db" "aws-rds" ["database"; "postgres"]
       {[ "uri" := cfenv.VString "postgres://db.example.com:5432/console" ]}].

(** A default client as the process starts with. *)
Definition freshClient : http.Client :=
  {| http.Transport_ := None; http.Timeout := 0%Z |}.

(** A network on which no dial succeeds. *)
Definition deadNetwork : redis.Network :=
  fun _ _ _ => inl connectionRefused.


(** ** Proof tools *)

Ltac unfold_exec :=
  unfold InitSettings, InitSettings_body, initSessions, bind, MustGet,
    assign, self, ret, return_, construct in *;
  cbn [recv events] in *.

(** Closes a goal whose hypothesis says that a variable is in a list
    that does not hold it. *)
Ltac not_in_list :=
  let H := fresh in
  intros H; cbn in H;
  repeat match type of H with
         | _ \/ _ => destruct H as [H|H]
         end;
  first [discriminate H | contradiction H].

(** Decides a statement on one byte by trying the 256 of them. *)
Ltac by_bytes :=
  let c := fresh "c" in
  intros c; destruct c as [[] [] [] [] [] [] [] []];
  vm_compute; intros; solve [reflexivity | discriminate].

(** The run of [InitSettings], unfolded, as far as the sessions: one
    case for each variable read, the cases that end the run closed by
    [fin]. *)
Ltac run_to_sessions envVars fin :=
  (destruct (envVars HostnameEnvVar) eqn:?; [|fin]);
  (destruct (envVars APIURLEnvVar) eqn:?; [|fin]);
  (destruct (envVars LoginURLEnvVar) eqn:?; [|fin]);
  (destruct (envVars UAAURLEnvVar) eqn:?; [|fin]);
  (destruct (envVars LogURLEnvVar) eqn:?; [|fin]);
  cbn [recv events LocalCF SecureCookies set_SecureCookies set_LocalCF];
  (destruct (BoolGet envVars LocalCFEnvVar) eqn:?;
   destruct (BoolGet envVars SecureCookiesEnvVar) eqn:?;
   cbn [negb andb orb]; try solve [fin]);
  (destruct (envVars ClientIDEnvVar) eqn:?; [|fin]);
  (destruct (envVars ClientSecretEnvVar) eqn:?; [|fin]);
  cbn [recv events].

(** The same through the switch of the sessions. *)
Ltac run_sessions envVars env environ ping fin :=
  (destruct (String.eqb (Get envVars SessionBackendEnvVar "") "redis") eqn:?;
   [ destruct (getRedisSettings environ env)
       as [[?address ?password] [?err|]] eqn:?;
     [fin|];
     cbn [recv events fst snd];
     (destruct (envVars SessionKeyEnvVar) eqn:?; [|fin]);
     unfold redistore.NewRediStoreWithPool;
     (destruct ping as [?err|]; [fin|])
   | destruct (envVars SessionKeyEnvVar) eqn:?; [|fin] ]);
  cbn [recv events].

(** The same through the settings of the mail relay. *)
Ltac run_rest envVars fin :=
  (destruct (envVars SMTPFromEnvVar) eqn:?; [|fin]);
  (destruct (envVars SMTPHostEnvVar) eqn:?; [|fin]).

(** The error is the one of a required variable that is absent. *)
Ltac missing_field :=
  left; eexists; split; [|split; [eassumption|reflexivity]]; cbn; tauto.

(** Splits the hypotheses that an object is in a list of objects. *)
Ltac in_trace :=
  repeat match goal with
         | H : _ \/ _ |- _ => destruct H
         | H : False |- _ => destruct H
         end.



(** * The recovery boundary *)

(** The three cases of the deferred function on a panic. *)
Lemma deferred_missing name :
  InitSettings_deferred (Panic (PanicMissingEnvVar name))
  = Returned (Some (ErrMissingEnvVar name)).
Proof. reflexivity. Qed.

Lemma deferred_other v :
  InitSettings_deferred (Panic (PanicOther v)) = Panicked (PanicOther v).
Proof. reflexivity. Qed.

Lemma deferred_converts_only_missing r retErr :
  InitSettings_deferred (Panic r) = Returned retErr ->
  exists name, r = PanicMissingEnvVar name
               /\ retErr = Some (ErrMissingEnvVar name).
Proof.
  destruct r as [name|v]; cbn; intros H.
  - exists name. split; [reflexivity|]. congruence.
  - discriminate H.
Qed.

(** C10. The recovery boundary of [InitSettings] is its deferred
    function, which sees how the body ended. When the body panics with a
    [*ErrMissingEnvVar], [InitSettings] returns that value as its error.
    When the body panics with a value of any other type, the panic is
    raised again and escapes [InitSettings]. When the body returns,
    [InitSettings] returns what it returned. A panic is turned into an
    error return only when its value is a [*ErrMissingEnvVar]. In every
    case the caller's [Settings] and the objects constructed are those
    that the body left. *)
Theorem C10_recovery_boundary
    (s : Settings) (envVars : EnvVars) (env : option cfenv.App)
    (environ : gmap string string) (ping : option error) :
  let body := InitSettings_body envVars env environ ping (mkMachine s []) in
  let result := InitSettings s envVars env environ ping in
  fst result = fst body
  /\ (forall name,
        snd body = Panic (PanicMissingEnvVar name) ->
        snd result = Returned (Some (ErrMissingEnvVar name)))
  /\ (forall r,
        snd body = Panic r ->
        (forall name, r <> PanicMissingEnvVar name) ->
        snd result = Panicked r)
  /\ (forall retErr,
        snd body = Return retErr -> snd result = Returned retErr)
  /\ (forall r retErr,
        InitSettings_deferred (Panic r) = Returned retErr ->
        exists name, r = PanicMissingEnvVar name
                     /\ retErr = Some (ErrMissingEnvVar name))
  /\ (forall v,
        InitSettings_deferred (Panic (PanicOther v)) = Panicked (PanicOther v)).
Proof.
  intros body result. subst body result. unfold InitSettings.
  destruct (InitSettings_body envVars env environ ping (mkMachine s []))
    as [m body].
  cbn [fst snd].
  split; [reflexivity|].
  split; [intros name ->; apply deferred_missing|].
  split.
  { intros r -> Hother. destruct r as [name|v].
    - destruct (Hother name eq_refl).
    - apply deferred_other. }
  split; [intros retErr ->; reflexivity|].
  split; [exact deferred_converts_only_missing|exact deferred_other].
Qed.

(** C10 at the empty environment: the panic of the first [MustGet] is
    returned as the missing-variable error of the host name. *)
Lemma C10_recovery_boundary_witness :
  snd (InitSettings_body emptyEnvVars None ∅ None (mkMachine zeroSettings []))
  = Panic (PanicMissingEnvVar HostnameEnvVar)
  /\ snd (InitSettings zeroSettings emptyEnvVars None ∅ None)
     = Returned (Some (ErrMissingEnvVar HostnameEnvVar)).
Proof.
  split; [reflexivity|].
  exact (proj1 (proj2 (C10_recovery_boundary zeroSettings emptyEnvVars None ∅
                         None))
           HostnameEnvVar eq_refl).
Defined.

(** * The guard of the cookies *)

(** C2, as stated, fails: in the empty environment both flags are false,
    and [InitSettings] fails with the missing-variable error of the
    host name, which it reads before the guard. *)
Lemma C2_missing_field_comes_first :
  BoolGet emptyEnvVars LocalCFEnvVar = false
  /\ BoolGet emptyEnvVars SecureCookiesEnvVar = false
  /\ snd (InitSettings zeroSettings emptyEnvVars None ∅ None)
     = Returned (Some (ErrMissingEnvVar HostnameEnvVar)).
Proof. repeat split. Qed.

(** C2, amended. In every environment in which the local-target flag
    and the secure-cookies flag are both false, [InitSettings] fails
    before any session backend is constructed: no object has been
    constructed and the field [Sessions] is as it was. The error is the
    one of the guard (the invalid combination) when the five variables
    read before the guard are all present, and otherwise the
    missing-variable error of the first of them that is absent. *)
Theorem C2_insecure_cookies_guard
    (s : Settings) (envVars : EnvVars) (env : option cfenv.App)
    (environ : gmap string string) (ping : option error) :
  BoolGet envVars LocalCFEnvVar = false ->
  BoolGet envVars SecureCookiesEnvVar = false ->
  snd (InitSettings s envVars env environ ping)
  = Returned (Some (match firstMissing envVars beforeGuard with
                    | Some name => ErrMissingEnvVar name
                    | None => insecureCookiesError
                    end))
  /\ events (fst (InitSettings s envVars env environ ping)) = []
  /\ Sessions (recv (fst (InitSettings s envVars env environ ping)))
     = Sessions s.
Proof.
  intros HL HS. unfold beforeGuard, firstMissing. unfold_exec.
  cbn [List.find].
  destruct (envVars HostnameEnvVar); [|repeat split].
  destruct (envVars APIURLEnvVar); [|repeat split].
  destruct (envVars LoginURLEnvVar); [|repeat split].
  destruct (envVars UAAURLEnvVar); [|repeat split].
  destruct (envVars LogURLEnvVar); [|repeat split].
  cbn. rewrite HL, HS. cbn. repeat split.
Qed.

(** C2 at [insecureEnvVars]: the guard stops the bootstrap. *)
Lemma C2_insecure_cookies_guard_witness :
  snd (InitSettings zeroSettings insecureEnvVars None ∅ None)
  = Returned (Some insecureCookiesError)
  /\ events (fst (InitSettings zeroSettings insecureEnvVars None ∅ None)) = []
  /\ Sessions (recv (fst (InitSettings zeroSettings insecureEnvVars None ∅ None)))
     = None.
Proof.
  exact (C2_insecure_cookies_guard zeroSettings insecureEnvVars None ∅ None
           eq_refl eq_refl).
Defined.

(** * Failure and the caller's settings *)

(** C1, as stated, fails: with the host name set and the API URL
    absent, [InitSettings] returns the missing-variable error, and the
    caller's [Settings], whose [AppURL] was empty, holds the host name. *)
Lemma C1_partial_settings_visible :
  snd (InitSettings zeroSettings hostOnlyEnvVars None ∅ None)
  = Returned (Some (ErrMissingEnvVar APIURLEnvVar))
  /\ AppURL zeroSettings = ""
  /\ AppURL (recv (fst (InitSettings zeroSettings hostOnlyEnvVars None ∅ None)))
     = "https://console.example.com".
Proof. repeat split. Qed.

(** C1, amended. [InitSettings] returns an error and nothing else; it
    fills in place the [Settings] that its caller holds. On every input
    on which it returns an error, the fields assigned before the failing
    step keep their new values in the caller's [Settings] ([BasePath],
    the first, always holds the value read from the environment), and
    the fields assigned by the last steps ([SMTPHost], [SMTPPass],
    [SMTPPort], [SMTPUser], [TICSecret]) keep the values they had before
    the call. *)
Theorem C1_error_leaves_partial_settings
    (s : Settings) (envVars : EnvVars) (env : option cfenv.App)
    (environ : gmap string string) (ping : option error) (e : error) :
  snd (InitSettings s envVars env environ ping) = Returned (Some e) ->
  let s' := recv (fst (InitSettings s envVars env environ ping)) in
  BasePath s' = Get envVars BasePathEnvVar ""
  /\ SMTPHost s' = SMTPHost s
  /\ SMTPPass s' = SMTPPass s
  /\ SMTPPort s' = SMTPPort s
  /\ SMTPUser s' = SMTPUser s
  /\ TICSecret s' = TICSecret s.
Proof.
  intros H s'. subst s'. revert H. unfold_exec.
  destruct (envVars HostnameEnvVar); [|repeat split].
  destruct (envVars APIURLEnvVar); [|repeat split].
  destruct (envVars LoginURLEnvVar); [|repeat split].
  destruct (envVars UAAURLEnvVar); [|repeat split].
  destruct (envVars LogURLEnvVar); [|repeat split].
  cbn [recv events LocalCF SecureCookies set_SecureCookies set_LocalCF].
  destruct (negb (BoolGet envVars LocalCFEnvVar)
            && negb (BoolGet envVars SecureCookiesEnvVar)); [repeat split|].
  destruct (envVars ClientIDEnvVar); [|repeat split].
  destruct (envVars ClientSecretEnvVar); [|repeat split].
  cbn [recv events].
  destruct (String.eqb (Get envVars SessionBackendEnvVar "") "redis").
  - destruct (getRedisSettings environ env) as [[address password] [err|]];
      [repeat split|].
    cbn [recv events].
    destruct (envVars SessionKeyEnvVar); [|repeat split].
    unfold redistore.NewRediStoreWithPool.
    destruct ping as [err|]; [repeat split|].
    cbn [recv events].
    destruct (envVars SMTPFromEnvVar); [|repeat split].
    destruct (envVars SMTPHostEnvVar); [|repeat split].
    cbn. discriminate.
  - destruct (envVars SessionKeyEnvVar); [|repeat split].
    cbn [recv events].
    destruct (envVars SMTPFromEnvVar); [|repeat split].
    destruct (envVars SMTPHostEnvVar); [|repeat split].
    cbn. discriminate.
Qed.

(** C1 at [hostOnlyEnvVars]. *)
Lemma C1_error_leaves_partial_settings_witness :
  let s' := recv (fst (InitSettings zeroSettings hostOnlyEnvVars None ∅ None)) in
  BasePath s' = ""
  /\ SMTPHost s' = ""
  /\ SMTPPass s' = ""
  /\ SMTPPort s' = ""
  /\ SMTPUser s' = ""
  /\ TICSecret s' = "".
Proof.
  exact (C1_error_leaves_partial_settings zeroSettings hostOnlyEnvVars None ∅
           None (ErrMissingEnvVar APIURLEnvVar) eq_refl).
Defined.

(** * A required variable that is absent *)

(** C6, as stated, fails: in an environment that omits only the sender
    address of the mail relay, [InitSettings] fails with the
    missing-variable error that names it, and by then the file store has
    been constructed and assigned to [Sessions]. *)
Lemma C6_backend_built_before_smtp :
  snd (InitSettings zeroSettings localEnvVars None ∅ None) = Returned None
  /\ snd (InitSettings zeroSettings (unsetenv SMTPFromEnvVar localEnvVars)
            None ∅ None)
     = Returned (Some (ErrMissingEnvVar SMTPFromEnvVar))
  /\ events (fst (InitSettings zeroSettings
                    (unsetenv SMTPFromEnvVar localEnvVars) None ∅ None))
     = [NewFilesystemStore (sessions.NewFilesystemStore "" "session-key");
        GobRegister "oauth2.Token"]
  /\ Sessions (recv (fst (InitSettings zeroSettings
                            (unsetenv SMTPFromEnvVar localEnvVars) None ∅ None)))
     = Some (FilesystemStore_ (fileStore "session-key" false)).
Proof. repeat split. Qed.

(** C6, amended. Take an environment on which [InitSettings] succeeds
    and remove one required variable, whichever it is: [InitSettings]
    fails with the missing-variable error that names it. No session
    backend has been constructed when the variable is one of those read
    before the sessions are initialized (host name, API URL, login URL,
    UAA URL, log URL, client id, client secret). When it is the session
    key, no store has been constructed and [Sessions] is as it was; for
    the redis backend the pool has been. When it is the sender or the
    host of the mail relay, which are read last, the session backend has
    been constructed as in the successful run and [Sessions] holds it. *)
Theorem C6_missing_required_field
    (s : Settings) (envVars : EnvVars) (env : option cfenv.App)
    (environ : gmap string string) (ping : option error)
    (name : EnvVarName) :
  In name requiredFields ->
  snd (InitSettings s envVars env environ ping) = Returned None ->
  let ok := fst (InitSettings s envVars env environ ping) in
  let m := fst (InitSettings s (unsetenv name envVars) env environ ping) in
  let r := getRedisSettings environ env in
  snd (InitSettings s (unsetenv name envVars) env environ ping)
  = Returned (Some (ErrMissingEnvVar name))
  /\ (In name beforeSessions ->
      events m = [] /\ Sessions (recv m) = Sessions s)
  /\ (name = SessionKeyEnvVar ->
      Sessions (recv m) = Sessions s
      /\ events m
         = if String.eqb (Get envVars SessionBackendEnvVar "") "redis"
           then [NewPool (newRedisPool (fst (fst r)) (snd (fst r)))]
           else [])
  /\ (In name afterSessions ->
      events m = events ok
      /\ Sessions (recv m) = Sessions (recv ok)
      /\ Sessions (recv ok) <> None).
Proof.
  intros Hin Hok ok m r. subst ok m r. revert Hok.
  assert (Hcases : In name requiredFields) by exact Hin.
  cbn in Hcases.
  repeat match type of Hcases with
         | _ \/ _ => destruct Hcases as [Hcases|Hcases]
         end; try contradiction Hcases; subst name; clear Hin;
    unfold_exec; unfold Get, BoolGet, unsetenv; cbn [EnvVarName_eqb];
    (destruct (envVars HostnameEnvVar); [|discriminate]);
    (destruct (envVars APIURLEnvVar); [|discriminate]);
    (destruct (envVars LoginURLEnvVar); [|discriminate]);
    (destruct (envVars UAAURLEnvVar); [|discriminate]);
    (destruct (envVars LogURLEnvVar); [|discriminate]);
    cbn [recv events LocalCF SecureCookies set_SecureCookies set_LocalCF];
    (destruct (negb _ && negb _); [discriminate|]);
    (destruct (envVars ClientIDEnvVar); [|discriminate]);
    (destruct (envVars ClientSecretEnvVar); [|discriminate]);
    cbn [recv events];
    (match goal with
     | |- context [String.eqb ?x "redis"] => destruct (String.eqb x "redis")
     end;
     [ destruct (getRedisSettings environ env) as [[address password] [err|]];
       [discriminate|];
       cbn [recv events fst snd];
       (destruct (envVars SessionKeyEnvVar); [|discriminate]);
       unfold redistore.NewRediStoreWithPool;
       (destruct ping as [err|]; [discriminate|])
     | destruct (envVars SessionKeyEnvVar); [|discriminate] ]);
    cbn [recv events];
    (destruct (envVars SMTPFromEnvVar); [|discriminate]);
    (destruct (envVars SMTPHostEnvVar); [|discriminate]);
    intros _; cbn;
    (split; [reflexivity|]);
    (split; [first [not_in_list | intros _; split; reflexivity]|]);
    (split; [first [discriminate | intros _; split; reflexivity]|]);
    first [not_in_list | intros _; repeat split; discriminate].
Qed.

(** C6 at [localEnvVars] without the client secret. *)
Lemma C6_missing_required_field_witness :
  snd (InitSettings zeroSettings (unsetenv ClientSecretEnvVar localEnvVars)
         None ∅ None)
  = Returned (Some (ErrMissingEnvVar ClientSecretEnvVar))
  /\ events (fst (InitSettings zeroSettings
                    (unsetenv ClientSecretEnvVar localEnvVars) None ∅ None))
     = []
  /\ Sessions (recv (fst (InitSettings zeroSettings
                            (unsetenv ClientSecretEnvVar localEnvVars)
                            None ∅ None)))
     = None.
Proof.
  pose proof (C6_missing_required_field zeroSettings localEnvVars None ∅ None
                ClientSecretEnvVar) as H.
  cbv zeta in H.
  destruct H as [H1 [H2 _]].
  - cbn. tauto.
  - reflexivity.
  - destruct H2 as [H2 H3]; [cbn; tauto|].
    exact (conj H1 (conj H2 H3)).
Defined.

(** * The objects that a run constructs *)

(** Every pool that a run constructs is the pool of lines 149 to 176 for
    the address and the password that the resolver returned, without an
    error, under the selector ["redis"]. *)
Lemma InitSettings_pool
    (s : Settings) (envVars : EnvVars) (env : option cfenv.App)
    (environ : gmap string string) (ping : option error) (pool : redis.Pool) :
  In (NewPool pool) (events (fst (InitSettings s envVars env environ ping))) ->
  String.eqb (Get envVars SessionBackendEnvVar "") "redis" = true
  /\ exists address password,
       getRedisSettings environ env = (address, password, None)
       /\ pool = newRedisPool address password.
Proof.
  unfold_exec.
  destruct (envVars HostnameEnvVar); [|intros []].
  destruct (envVars APIURLEnvVar); [|intros []].
  destruct (envVars LoginURLEnvVar); [|intros []].
  destruct (envVars UAAURLEnvVar); [|intros []].
  destruct (envVars LogURLEnvVar); [|intros []].
  cbn [recv events LocalCF SecureCookies set_SecureCookies set_LocalCF].
  destruct (negb _ && negb _); [intros []|].
  destruct (envVars ClientIDEnvVar); [|intros []].
  destruct (envVars ClientSecretEnvVar); [|intros []].
  cbn [recv events].
  destruct (String.eqb (Get envVars SessionBackendEnvVar "") "redis").
  - destruct (getRedisSettings environ env) as [[address password] [err|]];
      [intros []|].
    assert (Hpool : forall l,
               In (NewPool pool)
                  (NewPool (newRedisPool address password) :: l) ->
               (forall e, In e l -> forall p, e <> NewPool p) ->
               true = true
               /\ exists a p, (address, password, @None error) = (a, p, None)
                              /\ pool = newRedisPool a p).
    { intros l [Heq|Hin] Hl.
      - injection Heq as <-. split; [reflexivity|]. eauto.
      - exfalso. exact (Hl _ Hin pool eq_refl). }
    cbn [recv events].
    destruct (envVars SessionKeyEnvVar);
      [|cbn [recv events app]; intros H; apply (Hpool [] H); intros e []].
    unfold redistore.NewRediStoreWithPool.
    destruct ping as [err|];
      [cbn [recv events app]; intros H; apply (Hpool _ H);
       intros e [<-|[]]; discriminate|].
    cbn [recv events].
    destruct (envVars SMTPFromEnvVar);
      [|cbn [recv events app]; intros H; apply (Hpool _ H);
        intros e [<-|[<-|[]]]; discriminate].
    destruct (envVars SMTPHostEnvVar);
      cbn [recv events app]; intros H; apply (Hpool _ H);
      intros e [<-|[<-|[]]]; discriminate.
  - destruct (envVars SessionKeyEnvVar); [|intros []].
    cbn [recv events].
    destruct (envVars SMTPFromEnvVar);
      [|cbn; intros [H|[H|[]]]; discriminate H].
    destruct (envVars SMTPHostEnvVar);
      cbn; intros [H|[H|[]]]; discriminate H.
Qed.

(** A run under a selector other than ["redis"] that succeeds, or that
    constructs a file store, leaves the file backend installed. *)
Lemma InitSettings_file_backend
    (s : Settings) (envVars : EnvVars) (env : option cfenv.App)
    (environ : gmap string string) (ping : option error) :
  String.eqb (Get envVars SessionBackendEnvVar "") "redis" = false ->
  snd (InitSettings s envVars env environ ping) = Returned None
  \/ (exists store,
        In (NewFilesystemStore store)
           (events (fst (InitSettings s envVars env environ ping)))) ->
  fileBackendInstalled envVars (fst (InitSettings s envVars env environ ping)).
Proof.
  intros Hsel. unfold fileBackendInstalled. unfold_exec.
  assert (Hno : forall (x : error) (P : Prop),
             Returned (Some x) = Returned None
             \/ (exists store, In (NewFilesystemStore store) []) -> P).
  { intros x P [H|[store []]]. discriminate H. }
  destruct (envVars HostnameEnvVar); [|apply Hno].
  destruct (envVars APIURLEnvVar); [|apply Hno].
  destruct (envVars LoginURLEnvVar); [|apply Hno].
  destruct (envVars UAAURLEnvVar); [|apply Hno].
  destruct (envVars LogURLEnvVar); [|apply Hno].
  cbn [recv events LocalCF SecureCookies set_SecureCookies set_LocalCF].
  destruct (negb _ && negb _); [apply Hno|].
  destruct (envVars ClientIDEnvVar); [|apply Hno].
  destruct (envVars ClientSecretEnvVar); [|apply Hno].
  cbn [recv events]. rewrite Hsel.
  destruct (envVars SessionKeyEnvVar) as [key|]; [|apply Hno].
  cbn [recv events].
  destruct (envVars SMTPFromEnvVar);
    [|cbn; intros _; exists key; repeat split].
  destruct (envVars SMTPHostEnvVar);
    cbn; intros _; exists key; repeat split.
Qed.

(** * The pool of the cache backend *)

(** C8. Every pool that [InitSettings] constructs has these parameters:
    at most 10 idle connections; an idle timeout of 240 seconds; a test
    on borrow that is a PING on the borrowed connection and returns its
    error; and a dial that first connects over tcp to the resolved
    address with a connect, a write and a read timeout of 10 seconds
    each. *)
Theorem C8_pool_parameters
    (s : Settings) (envVars : EnvVars) (env : option cfenv.App)
    (environ : gmap string string) (ping : option error) (pool : redis.Pool) :
  In (NewPool pool) (events (fst (InitSettings s envVars env environ ping))) ->
  redis.MaxIdle pool = 10%Z
  /\ redis.IdleTimeout pool = (240 * Second)%Z
  /\ Second = 1000000000%Z
  /\ (forall c t, redis.TestOnBorrow pool c t = redis.Do c "PING" [])
  /\ (forall err net, exists rest,
        fst (redis.Dial pool err net)
        = redis.CallDial "tcp" (fst (fst (getRedisSettings environ env)))
            [redis.DialConnectTimeout (10 * Second)%Z;
             redis.DialWriteTimeout (10 * Second)%Z;
             redis.DialReadTimeout (10 * Second)%Z]
          :: rest).
Proof.
  intros Hin.
  destruct (InitSettings_pool _ _ _ _ _ _ Hin)
    as [_ [address [password [Hr ->]]]].
  rewrite Hr. cbn [fst snd].
  repeat split.
  intros err net. cbn [redis.Dial newRedisPool].
  unfold redisPool_Dial, dialOptions.
  destruct (net "tcp" address _) as [dialErr|c]; [eexists; reflexivity|].
  destruct (negb (String.eqb password "")); [|eexists; reflexivity].
  destruct (notNil err); eexists; reflexivity.
Qed.

(** C8 at [redisEnvVars] and [redisEnviron]. *)
Lemma C8_pool_parameters_witness :
  let pool := newRedisPool "cachehost:6380" "secret" in
  redis.MaxIdle pool = 10%Z
  /\ redis.IdleTimeout pool = (240 * Second)%Z
  /\ Second = 1000000000%Z
  /\ (forall c t, redis.TestOnBorrow pool c t = redis.Do c "PING" [])
  /\ (forall err net, exists rest,
        fst (redis.Dial pool err net)
        = redis.CallDial "tcp"
            (fst (fst (getRedisSettings redisEnviron None)))
            [redis.DialConnectTimeout (10 * Second)%Z;
             redis.DialWriteTimeout (10 * Second)%Z;
             redis.DialReadTimeout (10 * Second)%Z]
          :: rest).
Proof.
  apply (C8_pool_parameters zeroSettings redisEnvVars None redisEnviron None
           (newRedisPool "cachehost:6380" "secret")).
  vm_compute. left. reflexivity.
Defined.

(** * The dial of the cache backend *)

(** With [err] nil, the dial returns the connection whatever the AUTH
    command answered, and does not close it. *)
Lemma Dial_ignores_AUTH_error
    (address password : string) (net : redis.Network) (c : redis.Conn) :
  String.eqb password "" = false ->
  net "tcp" address dialOptions = inr c ->
  redis.Dial (newRedisPool address password) None net
  = ([redis.CallDial "tcp" address dialOptions;
      redis.CallDo (redis.conn_id c) "AUTH" [password]],
     (Some c, None)).
Proof.
  intros Hpw Hnet. cbn [redis.Dial newRedisPool]. unfold redisPool_Dial.
  rewrite Hnet, Hpw. reflexivity.
Qed.

(** C4, at a failing input. The bootstrap runs with the redis backend
    and the URI [redis://:secret@cachehost:6380]; the variable [err]
    that the dial tests is nil, since the resolver returned no error.
    The server refuses the AUTH command. The dial of the pool issues
    AUTH right after the connect, and then returns the connection with a
    nil error: it makes no call of [Close], and the error of AUTH is
    lost. *)
Theorem C4_auth_failure_not_detected :
  events (fst (InitSettings zeroSettings redisEnvVars None redisEnviron None))
  = [NewPool (newRedisPool "cachehost:6380" "secret");
     NewRediStore
       (fst (redistore.NewRediStoreWithPool None
               (newRedisPool "cachehost:6380" "secret") "session-key"));
     GobRegister "oauth2.Token"]
  /\ getRedisSettings redisEnviron None = ("cachehost:6380", "secret", None)
  /\ redis.Do openServerConn "AUTH" ["secret"]
     = Some (errorString "ERR Client sent AUTH, but no password is set")
  /\ redis.Dial (newRedisPool "cachehost:6380" "secret") None openServerNetwork
     = ([redis.CallDial "tcp" "cachehost:6380" dialOptions;
         redis.CallDo 1 "AUTH" ["secret"]],
        (Some openServerConn, None)).
Proof. repeat split; vm_compute; reflexivity. Qed.

(** * The file backend *)

(** C9. Whenever the file backend is selected, that is, whenever the
    selector of the session backend is unset or is not ["redis"], a run
    that succeeds or that constructs the file store leaves in [Sessions]
    a file store that caps an entry at 16 KiB and whose cookie options
    are: http-only, path ["/"], a maximal age of 604800 seconds, and the
    secure flag of the configuration, which is the secure-cookies
    variable. The backend is named ["file"], and its health check
    returns true whatever it meets when it runs. *)
Theorem C9_file_backend
    (s : Settings) (envVars : EnvVars) (env : option cfenv.App)
    (environ : gmap string string) (ping : option error) :
  Get envVars SessionBackendEnvVar "" <> "redis" ->
  snd (InitSettings s envVars env environ ping) = Returned None
  \/ (exists store,
        In (NewFilesystemStore store)
           (events (fst (InitSettings s envVars env environ ping)))) ->
  let m := fst (InitSettings s envVars env environ ping) in
  exists store probe,
    Sessions (recv m) = Some (FilesystemStore_ store)
    /\ sessions.fs_maxLength store = (16 * 1024)%Z
    /\ sessions.fs_Options store
       = {| sessions.Path := "/"; sessions.Domain := "";
            sessions.MaxAge := 604800;
            sessions.Secure := SecureCookies (recv m);
            sessions.HttpOnly := true |}
    /\ SecureCookies (recv m) = BoolGet envVars SecureCookiesEnvVar
    /\ SessionBackend (recv m) = "file"
    /\ SessionBackendHealthCheck (recv m) = Some probe
    /\ forall st : ProbeState, probe st = true.
Proof.
  intros Hsel Hrun m. subst m.
  apply String.eqb_neq in Hsel.
  destruct (InitSettings_file_backend s envVars env environ ping Hsel Hrun)
    as [key [_ [HS [Hsec [Hname Hprobe]]]]].
  exists (fileStore key (SecureCookies
                           (recv (fst (InitSettings s envVars env environ ping))))).
  exists fileHealthCheck.
  repeat split; assumption.
Qed.

(** C9 at [localEnvVars], where the selector is unset. *)
Lemma C9_file_backend_witness :
  let m := fst (InitSettings zeroSettings localEnvVars None ∅ None) in
  exists store probe,
    Sessions (recv m) = Some (FilesystemStore_ store)
    /\ sessions.fs_maxLength store = (16 * 1024)%Z
    /\ sessions.fs_Options store
       = {| sessions.Path := "/"; sessions.Domain := "";
            sessions.MaxAge := 604800;
            sessions.Secure := SecureCookies (recv m);
            sessions.HttpOnly := true |}
    /\ SecureCookies (recv m) = BoolGet localEnvVars SecureCookiesEnvVar
    /\ SessionBackend (recv m) = "file"
    /\ SessionBackendHealthCheck (recv m) = Some probe
    /\ forall st : ProbeState, probe st = true.
Proof.
  apply (C9_file_backend zeroSettings localEnvVars None ∅ None).
  - discriminate.
  - left. reflexivity.
Defined.

(** * The resolution chain *)

(** The local default of the resolver. *)
Lemma settingsOfURI_default :
  settingsOfURI "redis://localhost:6379" = ("localhost:6379", "", None).
Proof. vm_compute. reflexivity. Qed.

(** A service that carries the tag ["redis"] and comes first in the
    binding is the first that [WithTag] returns. *)
Lemma WithTag_first (service : cfenv.Service) (others : list cfenv.Service) :
  In "redis" (cfenv.Tags service) ->
  exists rest,
    cfenv.WithTag (service :: others) "redis" = (service :: rest, None).
Proof.
  intros Htag. unfold cfenv.WithTag. cbn [List.filter].
  replace (existsb (cfenv.EqualFold "redis") (cfenv.Tags service)) with true.
  - eexists. reflexivity.
  - symmetry. apply existsb_exists. exists "redis". split; [exact Htag|].
    reflexivity.
Qed.

(** Without a direct URI, the resolver falls back on the local default
    as soon as the service binding gives an empty URI or an error. *)
Lemma getRedisSettings_fallback
    (environ : gmap string string) (env : option cfenv.App) :
  Getenv environ "REDIS_URI" = "" ->
  fst (getRedisService env) = "" \/ snd (getRedisService env) <> None ->
  getRedisSettings environ env = ("localhost:6379", "", None).
Proof.
  intros Hdirect Hnone. unfold getRedisSettings. rewrite Hdirect.
  cbn [String.eqb].
  destruct (getRedisService env) as [uri err]. cbn [fst snd] in Hnone.
  replace (String.eqb uri "" || notNil err) with true.
  - apply settingsOfURI_default.
  - symmetry. destruct Hnone as [->|Herr]; [reflexivity|].
    destruct err; [apply orb_true_r|congruence].
Qed.

(** C3. The resolver is a function of the process environment and of
    the service binding, and it follows its chain in order. When the
    direct connection URI is set, the result is the one of that URI,
    whatever the service binding holds. When it is not set and the first
    service of the binding carries the tag ["redis"] and a non-empty
    string under ["uri"], the result is the one of that URI. When it is
    not set and the service binding gives an empty URI or an error, the
    result is the local default address [localhost:6379] with an empty
    password. *)
Theorem C3_resolution_chain
    (environ : gmap string string) (env : option cfenv.App) :
  (Getenv environ "REDIS_URI" <> "" ->
   getRedisSettings environ env = settingsOfURI (Getenv environ "REDIS_URI"))
  /\ (forall service others uri,
        Getenv environ "REDIS_URI" = "" ->
        env = Some (cfenv.mkApp (service :: others)) ->
        In "redis" (cfenv.Tags service) ->
        cfenv.Credentials service !! "uri" = Some (cfenv.VString uri) ->
        uri <> "" ->
        getRedisSettings environ env = settingsOfURI uri)
  /\ (Getenv environ "REDIS_URI" = "" ->
      fst (getRedisService env) = "" \/ snd (getRedisService env) <> None ->
      getRedisSettings environ env = ("localhost:6379", "", None)).
Proof.
  split; [|split].
  - intros Hdirect. unfold getRedisSettings.
    apply String.eqb_neq in Hdirect. rewrite Hdirect.
    cbn [notNil orb]. rewrite Hdirect. reflexivity.
  - intros service others uri Hdirect -> Htag Huri Hne.
    unfold getRedisSettings. rewrite Hdirect. cbn [String.eqb].
    unfold getRedisService. cbn [cfenv.Services].
    destruct (WithTag_first service others Htag) as [rest ->].
    rewrite Huri. cbn [assertString negb notNil].
    apply String.eqb_neq in Hne. rewrite Hne. reflexivity.
  - apply getRedisSettings_fallback.
Qed.

(** C3 at three inputs: a direct URI beside a matching binding, the
    binding alone, and neither. *)
Lemma C3_resolution_chain_witness :
  getRedisSettings {[ "REDIS_URI" := "redis://:direct@otherhost:6381" ]}
    (Some uriBinding)
  = ("otherhost:6381", "direct", None)
  /\ getRedisSettings ∅ (Some uriBinding) = ("cachehost:6380", "secret", None)
  /\ getRedisSettings ∅ None = ("localhost:6379", "", None).
Proof.
  split; [|split].
  - refine (eq_trans
              (proj1 (C3_resolution_chain
                        {[ "REDIS_URI" := "redis://:direct@otherhost:6381" ]}
                        (Some uriBinding)) _) _).
    + vm_compute. discriminate.
    + vm_compute. reflexivity.
  - refine (eq_trans
              (proj1 (proj2 (C3_resolution_chain ∅ (Some uriBinding)))
                 _ [] "redis://:secret@cachehost:6380" _ _ _ _ _) _).
    + reflexivity.
    + reflexivity.
    + left. reflexivity.
    + reflexivity.
    + discriminate.
    + vm_compute. reflexivity.
  - apply (proj2 (proj2 (C3_resolution_chain ∅ None))).
    + reflexivity.
    + left. reflexivity.
Defined.

(** * The legacy credentials *)

(** C5, as stated, fails: the service lacks the password, the legacy
    reconstruction fails with the error that names it, [getRedisService]
    returns another error in its place, and [getRedisSettings] drops
    that one and returns the local default without an error. *)
Lemma C5_missing_field_error_is_dropped :
  (exists service,
     cfenv.Services partsBinding = [service]
     /\ hasString service "uri" = false
     /\ hasString service "password" = false
     /\ getRedisURIFromParts service
        = ("", Some (couldNotFindKey "password")))
  /\ getRedisService (Some partsBinding)
     = ("", Some (errorString "Could not parse redis uri"))
  /\ getRedisSettings ∅ (Some partsBinding) = ("localhost:6379", "", None).
Proof.
  split; [|split].
  - eexists. split; [reflexivity|]. repeat split.
  - vm_compute. reflexivity.
  - vm_compute. reflexivity.
Qed.

(** C5, amended. When the first service of the binding carries the tag
    ["redis"] and its credentials hold no string under ["uri"],
    [getRedisService] attempts the legacy reconstruction from the
    credentials ["hostname"], ["port"] and ["password"]. When one of them
    is not a string, the reconstruction fails with an error for the
    first such field, which names the key when the field is the port or
    the password; [getRedisService] returns the error
    [Could not parse redis uri] in its place; and [getRedisSettings],
    when the direct URI is not set, returns the local default address
    with an empty password and no error. *)
Theorem C5_legacy_reconstruction
    (service : cfenv.Service) (others : list cfenv.Service) :
  In "redis" (cfenv.Tags service) ->
  hasString service "uri" = false ->
  let app := cfenv.mkApp (service :: others) in
  getRedisService (Some app)
  = match getRedisURIFromParts service with
    | (uri, None) => (uri, None)
    | (_, Some _) => ("", Some (errorString "Could not parse redis uri"))
    end
  /\ (hasString service "hostname" = false ->
      exists err, getRedisURIFromParts service = ("", Some err))
  /\ (hasString service "hostname" = true ->
      hasString service "port" = false ->
      getRedisURIFromParts service = ("", Some (couldNotFindKey "port")))
  /\ (hasString service "hostname" = true ->
      hasString service "port" = true ->
      hasString service "password" = false ->
      getRedisURIFromParts service = ("", Some (couldNotFindKey "password")))
  /\ (forall key,
        In key ["hostname"; "port"; "password"] ->
        hasString service key = false ->
        getRedisService (Some app)
        = ("", Some (errorString "Could not parse redis uri"))
        /\ forall environ,
             Getenv environ "REDIS_URI" = "" ->
             getRedisSettings environ (Some app)
             = ("localhost:6379", "", None)).
Proof.
  intros Htag Huri app.
  assert (Hservice : getRedisService (Some app)
            = match getRedisURIFromParts service with
              | (uri, None) => (uri, None)
              | (_, Some _) =>
                  ("", Some (errorString "Could not parse redis uri"))
              end).
  { unfold getRedisService, app. cbn [cfenv.Services].
    destruct (WithTag_first service others Htag) as [rest ->].
    unfold hasString in Huri.
    destruct (assertString (cfenv.Credentials service !! "uri")) as [uri ok].
    cbn [snd] in Huri. subst ok. cbn [negb].
    destruct (getRedisURIFromParts service) as [u [e|]]; reflexivity. }
  unfold hasString, getRedisURIFromParts in *.
  destruct (assertString (cfenv.Credentials service !! "hostname"))
    as [host [|]] eqn:Ehost;
    destruct (assertString (cfenv.Credentials service !! "port"))
      as [port [|]] eqn:Eport;
    destruct (assertString (cfenv.Credentials service !! "password"))
      as [password [|]] eqn:Epassword;
    cbn [snd negb] in *;
    (split; [exact Hservice|]);
    repeat (split; [first [reflexivity | discriminate
                           | intros; discriminate
                           | intros; eexists; reflexivity]|]);
    intros key Hkey Hmissing;
    try (split;
         [exact Hservice
         |intros environ Hdirect; apply getRedisSettings_fallback;
          [exact Hdirect|rewrite Hservice; left; reflexivity]]).
  (* all three are strings: no key of the list is missing *)
  cbn in Hkey.
  destruct Hkey as [<-|[<-|[<-|[]]]];
    unfold hasString in Hmissing;
    rewrite ?Ehost, ?Eport, ?Epassword in Hmissing;
    discriminate Hmissing.
Qed.

(** C5 at [partsBinding]. *)
Lemma C5_legacy_reconstruction_witness :
  getRedisService (Some partsBinding)
  = ("", Some (errorString "Could not parse redis uri"))
  /\ getRedisSettings ∅ (Some partsBinding) = ("localhost:6379", "", None).
Proof.
  pose proof (C5_legacy_reconstruction
                (cfenv.mkService "session-cache" "redis28" ["redis"]
                   {[ "hostname" := cfenv.VString "cachehost";
                      "port" := cfenv.VString "6380" ]})
                [] (or_introl eq_refl) eq_refl) as H.
  cbv zeta in H.
  destruct H as [_ [_ [_ [_ H]]]].
  destruct (H "password") as [H1 H2].
  - right. right. left. reflexivity.
  - reflexivity.
  - split; [exact H1|]. apply H2. reflexivity.
Defined.

(** * The round trip of a connection URI *)

Lemma allBytes_app p a b : allBytes p (a +:+ b) = allBytes p a && allBytes p b.
Proof.
  induction a as [|c a IH]; simpl; [reflexivity|].
  rewrite IH. apply andb_assoc.
Qed.

Lemma allBytes_impl (p q : ascii -> bool) s :
  (forall c, p c = true -> q c = true) ->
  allBytes p s = true -> allBytes q s = true.
Proof.
  intros Hpq. induction s as [|c s IH]; cbn; [reflexivity|].
  intros H. apply andb_true_iff in H as [Hc Hs].
  rewrite (Hpq c Hc). exact (IH Hs).
Qed.

Lemma Contains_app a b c :
  GoStrings.Contains (a +:+ b) c = GoStrings.Contains a c || GoStrings.Contains b c.
Proof.
  induction a as [|d a IH]; simpl; [reflexivity|].
  rewrite IH. apply orb_assoc.
Qed.

Lemma allBytes_not_Contains p s c :
  p c = false -> allBytes p s = true -> GoStrings.Contains s c = false.
Proof.
  intros Hc. induction s as [|d s IH]; cbn; [reflexivity|].
  intros H. apply andb_true_iff in H as [Hd Hs].
  rewrite (IH Hs), orb_false_r.
  destruct (Ascii.eqb_spec d c) as [->|]; [congruence|reflexivity].
Qed.

Lemma Cut_absent s c :
  GoStrings.Contains s c = false -> GoStrings.Cut s c = (s, "", false).
Proof.
  induction s as [|d s IH]; cbn; [reflexivity|].
  intros H. apply orb_false_iff in H as [Hd Hs].
  rewrite Hd, (IH Hs). reflexivity.
Qed.

Lemma Count_absent s c :
  GoStrings.Contains s c = false -> GoStrings.Count s c = 0.
Proof.
  induction s as [|d s IH]; cbn; [reflexivity|].
  intros H. apply orb_false_iff in H as [Hd Hs].
  rewrite Hd, (IH Hs). reflexivity.
Qed.

Lemma LastCut_absent s c :
  GoStrings.Contains s c = false -> GoStrings.LastCut s c = None.
Proof.
  induction s as [|d s IH]; cbn; [reflexivity|].
  intros H. apply orb_false_iff in H as [Hd Hs].
  rewrite Hd, (IH Hs). reflexivity.
Qed.

Lemma LastCut_app a b c :
  GoStrings.Contains b c = false ->
  GoStrings.LastCut (a +:+ String c b) c = Some (a, b).
Proof.
  intros Hb. induction a as [|d a IH]; simpl.
  - rewrite (LastCut_absent b c Hb), Ascii.eqb_refl. reflexivity.
  - rewrite IH. reflexivity.
Qed.

Lemma unescape_check_plain mode s :
  allBytes (passesUnescape mode) s = true -> url.unescape_check s mode = None.
Proof.
  induction s as [|c s IH]; [reflexivity|].
  cbn [allBytes url.unescape_check]. intros H.
  apply andb_true_iff in H as [Hc Hs]. unfold passesUnescape in Hc.
  apply andb_true_iff in Hc as [Hpct Hesc].
  apply negb_true_iff in Hpct. apply negb_true_iff in Hesc.
  rewrite Hpct.
  destruct (Ascii.eqb c "+"); [exact (IH Hs)|].
  rewrite Hesc. exact (IH Hs).
Qed.

Lemma unescape_decode_plain mode s :
  url.encoding_eqb mode url.encodeQueryComponent = false ->
  GoStrings.Contains s "%" = false -> url.unescape_decode s mode = s.
Proof.
  intros Hmode. induction s as [|c s IH]; [reflexivity|].
  cbn [GoStrings.Contains url.unescape_decode]. intros H.
  apply orb_false_iff in H as [Hc Hs].
  rewrite Hc, Hmode, (IH Hs).
  destruct (Ascii.eqb_spec c "+") as [->|]; reflexivity.
Qed.

Lemma unescape_plain mode s :
  url.encoding_eqb mode url.encodeQueryComponent = false ->
  allBytes (passesUnescape mode) s = true -> url.unescape s mode = inr s.
Proof.
  intros Hmode Hs. unfold url.unescape.
  rewrite (unescape_check_plain mode s Hs).
  rewrite (unescape_decode_plain mode s Hmode); [reflexivity|].
  apply (allBytes_not_Contains (passesUnescape mode)); [|exact Hs].
  unfold passesUnescape. reflexivity.
Qed.

Lemma plain_passes_host c : plainByte c = true -> passesUnescape url.encodeHost c = true.
Proof. revert c. by_bytes. Qed.

Lemma digit_passes_host c : isDigit c = true -> passesUnescape url.encodeHost c = true.
Proof. revert c. by_bytes. Qed.

Lemma plain_passes_user c :
  plainByte c = true -> passesUnescape url.encodeUserPassword c = true.
Proof. revert c. by_bytes. Qed.

Lemma plain_userinfo c :
  plainByte c = true -> isAlnum c || oneOf "-._:~!$&'()*+,;=%@" c = true.
Proof. revert c. by_bytes. Qed.

Lemma alpha_scheme c : isAlpha c = true -> schemeByte c = true.
Proof. revert c. by_bytes. Qed.

Lemma alpha_not_star c : isAlpha c = true -> Ascii.eqb c "*" = false.
Proof. revert c. by_bytes. Qed.

Lemma plain_not_bracket c : plainByte c = true -> Ascii.eqb "[" c = false.
Proof. revert c. by_bytes. Qed.

Lemma getScheme_loop_scheme s tail i :
  i <> 0 -> allBytes schemeByte s = true ->
  url.getScheme_loop i (s +:+ String ":" tail) = url.FoundScheme s tail.
Proof.
  revert i.
  induction s as [|c s IH]; intros i Hi;
    cbn [String.append url.getScheme_loop allBytes].
  - intros _. destruct i; [congruence|]. reflexivity.
  - intros H. apply andb_true_iff in H as [Hc Hs].
    change (String c s +:+ String ":" tail)
      with (String c (s +:+ String ":" tail)).
    cbn [url.getScheme_loop].
    rewrite (IH (S i) (Nat.neq_succ_0 i) Hs).
    unfold schemeByte in Hc.
    destruct (isAlpha c); [reflexivity|].
    cbn [orb] in Hc. rewrite Hc.
    destruct i; [congruence|]. reflexivity.
Qed.

Lemma getScheme_scheme scheme tail :
  validScheme scheme = true ->
  url.getScheme (scheme +:+ String ":" tail) = inr (scheme, tail).
Proof.
  destruct scheme as [|c s]; [discriminate|].
  unfold validScheme. intros H. apply andb_true_iff in H as [Hc Hs].
  unfold url.getScheme.
  change (String c s +:+ String ":" tail)
    with (String c (s +:+ String ":" tail)).
  cbn [url.getScheme_loop].
  rewrite (getScheme_loop_scheme s tail 1 (Nat.neq_succ_0 0) Hs), Hc.
  reflexivity.
Qed.

Lemma validScheme_bytes scheme :
  validScheme scheme = true -> allBytes schemeByte scheme = true.
Proof.
  destruct scheme as [|c s]; [discriminate|].
  unfold validScheme. intros H. apply andb_true_iff in H as [Hc Hs].
  simpl. rewrite (alpha_scheme c Hc), Hs. reflexivity.
Qed.

Lemma parseHost_plain host port :
  allBytes plainByte host = true -> allBytes isDigit port = true ->
  url.parseHost (host +:+ String ":" port) = inr (host +:+ String ":" port).
Proof.
  intros Hhost Hport. unfold url.parseHost.
  assert (Hb : GoStrings.HasPrefix (host +:+ String ":" port) "[" = false).
  { destruct host as [|c host]; [reflexivity|].
    change (String c host +:+ String ":" port)
      with (String c (host +:+ String ":" port)).
    cbn [GoStrings.HasPrefix allBytes] in *.
    apply andb_true_iff in Hhost as [Hc _].
    rewrite (plain_not_bracket c Hc). reflexivity. }
  rewrite Hb.
  rewrite (LastCut_app host port ":").
  2:{ apply (allBytes_not_Contains isDigit); [reflexivity|exact Hport]. }
  change (":" +:+ port) with (String ":" port).
  cbn [url.validOptionalPort]. rewrite Ascii.eqb_refl, Hport. cbn [negb andb].
  apply unescape_plain; [reflexivity|].
  rewrite allBytes_app. simpl.
  rewrite (allBytes_impl _ _ host plain_passes_host Hhost).
  rewrite (allBytes_impl _ _ port digit_passes_host Hport).
  reflexivity.
Qed.

Lemma parseAuthority_password password host port :
  allBytes plainByte password = true ->
  allBytes plainByte host = true -> allBytes isDigit port = true ->
  url.parseAuthority (String ":" password +:+ String "@" (host +:+ String ":" port))
  = inr (Some (url.UserPassword "" password), host +:+ String ":" port).
Proof.
  intros Hpw Hhost Hport. unfold url.parseAuthority.
  rewrite (LastCut_app (String ":" password) (host +:+ String ":" port) "@").
  2:{ rewrite Contains_app. simpl.
      rewrite (allBytes_not_Contains plainByte host "@" eq_refl Hhost).
      rewrite (allBytes_not_Contains isDigit port "@" eq_refl Hport).
      reflexivity. }
  rewrite (parseHost_plain host port Hhost Hport).
  assert (Hvalid : url.validUserinfo (String ":" password) = true).
  { unfold url.validUserinfo. simpl.
    exact (allBytes_impl _ _ password plain_userinfo Hpw). }
  rewrite Hvalid. cbn [negb GoStrings.Contains GoStrings.Cut Ascii.eqb].
  simpl.
  rewrite (unescape_plain url.encodeUserPassword password eq_refl
             (allBytes_impl _ _ password plain_passes_user Hpw)).
  reflexivity.
Qed.

Lemma part_not_CTL c : partByte c = true -> negb (url.isCTL c) = true.
Proof. revert c. by_bytes. Qed.

Lemma plain_part c : plainByte c = true -> partByte c = true.
Proof. revert c. by_bytes. Qed.

Lemma digit_part c : isDigit c = true -> partByte c = true.
Proof. revert c. by_bytes. Qed.

Lemma scheme_part c : schemeByte c = true -> partByte c = true.
Proof. revert c. by_bytes. Qed.

Lemma validScheme_not_star scheme tail :
  validScheme scheme = true -> String.eqb (scheme +:+ tail) "*" = false.
Proof.
  destruct scheme as [|c s]; [discriminate|].
  unfold validScheme. intros H. apply andb_true_iff in H as [Hc _].
  change (String c s +:+ tail) with (String c (s +:+ tail)).
  cbn [String.eqb]. rewrite (alpha_not_star c Hc). reflexivity.
Qed.

Lemma validScheme_not_empty scheme :
  validScheme scheme = true -> String.eqb scheme "" = false.
Proof. destruct scheme; [discriminate|reflexivity]. Qed.

Section RoundTrip.

Variables scheme password host port : string.
Hypothesis Hscheme : validScheme scheme = true.
Hypothesis Hpassword : allBytes plainByte password = true.
Hypothesis Hhost : allBytes plainByte host = true.
Hypothesis Hport : allBytes isDigit port = true.

Local Abbreviation authority := (uriAuthority password host port).
Local Abbreviation uri := (connectionURI scheme password host port).

Lemma connectionURI_parts : allBytes partByte uri = true.
Proof.
  unfold connectionURI, uriAuthority, hostPort.
  repeat first [ rewrite allBytes_app
               | progress cbn [allBytes String.append] ].
  rewrite (allBytes_impl _ _ scheme scheme_part (validScheme_bytes _ Hscheme)).
  rewrite (allBytes_impl _ _ password plain_part Hpassword).
  rewrite (allBytes_impl _ _ host plain_part Hhost).
  rewrite (allBytes_impl _ _ port digit_part Hport).
  reflexivity.
Qed.

Lemma connectionURI_without c :
  partByte c = false -> GoStrings.Contains uri c = false.
Proof.
  intros Hc. apply (allBytes_not_Contains partByte); [exact Hc|].
  exact connectionURI_parts.
Qed.

Lemma uriAuthority_parts : allBytes partByte authority = true.
Proof.
  pose proof connectionURI_parts as H. unfold connectionURI in H.
  rewrite allBytes_app in H. apply andb_true_iff in H as [_ H].
  cbn [allBytes String.append] in H.
  apply andb_true_iff in H as [_ H].
  apply andb_true_iff in H as [_ H].
  apply andb_true_iff in H as [_ H]. exact H.
Qed.

Lemma uriAuthority_without c :
  partByte c = false -> GoStrings.Contains authority c = false.
Proof.
  intros Hc. apply (allBytes_not_Contains partByte); [exact Hc|].
  exact uriAuthority_parts.
Qed.

Lemma uriAuthority_without_slash : GoStrings.Contains authority "/" = false.
Proof.
  unfold uriAuthority, hostPort.
  repeat first [ rewrite Contains_app
               | progress cbn [String.append GoStrings.Contains] ].
  rewrite (allBytes_not_Contains plainByte password "/" eq_refl Hpassword).
  rewrite (allBytes_not_Contains plainByte host "/" eq_refl Hhost).
  rewrite (allBytes_not_Contains isDigit port "/" eq_refl Hport).
  reflexivity.
Qed.

Lemma parse_connectionURI :
  url.parse uri
  = inr (url.mkURL (Some (url.UserPassword "" password)) (hostPort host port)).
Proof.
  unfold url.parse.
  assert (H1 : url.stringContainsCTLByte uri = false).
  { unfold url.stringContainsCTLByte.
    rewrite (allBytes_impl _ _ uri part_not_CTL connectionURI_parts).
    reflexivity. }
  rewrite H1.
  rewrite (validScheme_not_star scheme _ Hscheme : String.eqb uri "*" = false).
  change uri
    with (scheme +:+ String ":" (String "/" (String "/" authority))).
  rewrite (getScheme_scheme scheme _ Hscheme).
  assert (Hq : GoStrings.Contains (String "/" (String "/" authority)) "?"
               = false).
  { cbn [GoStrings.Contains].
    rewrite (uriAuthority_without "?" eq_refl). reflexivity. }
  rewrite (Count_absent _ "?" Hq), andb_false_r.
  rewrite (Cut_absent _ "?" Hq).
  cbn [fst GoStrings.HasPrefix]. rewrite !Ascii.eqb_refl.
  cbn [andb negb orb].
  rewrite (validScheme_not_empty scheme Hscheme). cbn [andb negb orb].
  change (GoStrings.HasPrefix authority "") with true. cbv iota beta.
  rewrite (Cut_absent authority "/" uriAuthority_without_slash).
  change authority
    with (String ":" password +:+ String "@" (host +:+ String ":" port)).
  rewrite (parseAuthority_password password host port Hpassword Hhost Hport).
  reflexivity.
Qed.

Lemma Parse_connectionURI :
  url.Parse uri
  = inr (url.mkURL (Some (url.UserPassword "" password)) (hostPort host port)).
Proof.
  unfold url.Parse.
  rewrite (Cut_absent uri "#" (connectionURI_without "#" eq_refl)).
  rewrite parse_connectionURI. reflexivity.
Qed.

End RoundTrip.

(** C7, as stated, fails: the password [p%41ss] is not empty and holds
    neither [@] nor [:], and parsing
    [redis://:p%41ss@cachehost:6380] yields the password [pAss]. *)
Lemma C7_escaped_password_is_decoded :
  GoStrings.Contains "p%41ss" "@" = false
  /\ GoStrings.Contains "p%41ss" ":" = false
  /\ connectionURI "redis" "p%41ss" "cachehost" "6380"
     = "redis://:p%41ss@cachehost:6380"
  /\ getRedisSettings {[ "REDIS_URI" := "redis://:p%41ss@cachehost:6380" ]} None
     = ("cachehost:6380", "pAss", None).
Proof. repeat split; vm_compute; reflexivity. Qed.

(** C7, amended. Parsing a connection URI of the form
    [scheme://:password@host:port] and reading back the host and the
    password reproduces exactly [host:port] and [password], for every
    scheme (a letter, then letters, digits and [+-.]), every password
    and every host made of letters, digits and the bytes
    [-._~!$&'()*+,;=], and every port made of digits. Such a password
    holds no [@] and no [:], and also none of [/], [?], [#] and [%],
    which [url.Parse] reads as delimiters or as an escape. *)
Theorem C7_uri_round_trip
    (scheme password host port : string) (env : option cfenv.App) :
  validScheme scheme = true ->
  allBytes plainByte password = true ->
  allBytes plainByte host = true ->
  allBytes isDigit port = true ->
  let uri := connectionURI scheme password host port in
  url.Parse uri
  = inr (url.mkURL (Some (url.UserPassword "" password)) (hostPort host port))
  /\ settingsOfURI uri = (hostPort host port, password, None)
  /\ forall environ,
       Getenv environ "REDIS_URI" = uri ->
       getRedisSettings environ env = (hostPort host port, password, None).
Proof.
  intros Hscheme Hpassword Hhost Hport uri. subst uri.
  pose proof (Parse_connectionURI scheme password host port
                Hscheme Hpassword Hhost Hport) as HParse.
  assert (Hsettings :
            settingsOfURI (connectionURI scheme password host port)
            = (hostPort host port, password, None)).
  { unfold settingsOfURI. rewrite HParse. reflexivity. }
  split; [exact HParse|]. split; [exact Hsettings|].
  intros environ Hdirect. unfold getRedisSettings. rewrite Hdirect.
  assert (Hne : String.eqb (connectionURI scheme password host port) ""
                = false).
  { apply String.eqb_neq. intros Heq.
    assert (Hc : GoStrings.Contains
                   (connectionURI scheme password host port) ":" = true).
    { unfold connectionURI. rewrite Contains_app.
      apply orb_true_iff. right. reflexivity. }
    rewrite Heq in Hc. discriminate Hc. }
  rewrite Hne. cbn [notNil orb]. rewrite Hne. exact Hsettings.
Qed.

(** C7 at the URI of the specification. *)
Lemma C7_uri_round_trip_witness :
  url.Parse "redis://:secret@cachehost:6380"
  = inr (url.mkURL (Some (url.UserPassword "" "secret")) "cachehost:6380")
  /\ settingsOfURI "redis://:secret@cachehost:6380"
     = ("cachehost:6380", "secret", None)
  /\ forall environ,
       Getenv environ "REDIS_URI" = "redis://:secret@cachehost:6380" ->
       getRedisSettings environ None = ("cachehost:6380", "secret", None).
Proof.
  exact (C7_uri_round_trip "redis" "secret" "cachehost" "6380" None
           eq_refl eq_refl eq_refl eq_refl).
Defined.


(** * When the bootstrap succeeds, and why it fails *)

(** X1. [InitSettings] returns nil exactly when the ten required
    variables are all set, the local-target flag or the secure-cookies
    flag is true, and, if the redis backend is selected, the resolver
    returns no error and the first round trip of the new store
    succeeds. *)
Theorem InitSettings_succeeds_iff
    (s : Settings) (envVars : EnvVars) (env : option cfenv.App)
    (environ : gmap string string) (ping : option error) :
  snd (InitSettings s envVars env environ ping) = Returned None
  <-> allPresent envVars requiredFields = true
      /\ BoolGet envVars LocalCFEnvVar || BoolGet envVars SecureCookiesEnvVar
         = true
      /\ backendReady envVars env environ ping = true.
Proof.
  unfold backendReady, redisSelected, allPresent, isPresent.
  cbn [requiredFields beforeSessions beforeGuard afterSessions app forallb].
  unfold_exec.
  run_to_sessions envVars
    ltac:(cbn; split; [discriminate | intros (H1 & H2 & H3); discriminate]).
  all: run_sessions envVars env environ ping
    ltac:(cbn; split; [discriminate | intros (H1 & H2 & H3); discriminate]).
  all: run_rest envVars
    ltac:(cbn; split; [discriminate | intros (H1 & H2 & H3); discriminate]).
  all: cbn; split; [intros _; repeat split | reflexivity].
Qed.

(** X1 at [redisEnvVars]: the three conditions hold, so the bootstrap
    succeeds. *)
Lemma InitSettings_succeeds_iff_witness :
  snd (InitSettings zeroSettings redisEnvVars None redisEnviron None)
  = Returned None.
Proof.
  apply (proj2 (InitSettings_succeeds_iff zeroSettings redisEnvVars None
                  redisEnviron None)).
  repeat split; vm_compute; reflexivity.
Defined.

(** X2. Every error that [InitSettings] returns has one of four
    reasons: a required variable is absent, and the error names it; both
    flags are false, and the error is the one of the guard; the redis
    backend is selected and the error is the one of the resolver; or the
    redis backend is selected and the error is the one of the first
    round trip of the new store. *)
Theorem InitSettings_failure_reasons
    (s : Settings) (envVars : EnvVars) (env : option cfenv.App)
    (environ : gmap string string) (ping : option error) (e : error) :
  snd (InitSettings s envVars env environ ping) = Returned (Some e) ->
  (exists name,
     In name requiredFields /\ envVars name = None
     /\ e = ErrMissingEnvVar name)
  \/ (e = insecureCookiesError
      /\ BoolGet envVars LocalCFEnvVar = false
      /\ BoolGet envVars SecureCookiesEnvVar = false)
  \/ (redisSelected envVars = true
      /\ snd (getRedisSettings environ env) = Some e)
  \/ (redisSelected envVars = true /\ ping = Some e).
Proof.
  unfold redisSelected. unfold_exec.
  run_to_sessions envVars
    ltac:(cbn; intros H; injection H as <-;
          first [missing_field | right; left; repeat split]).
  all: run_sessions envVars env environ ping
    ltac:(cbn; intros H; injection H as <-;
          first [ missing_field
                | right; right; left; split; reflexivity
                | right; right; right; split; reflexivity ]).
  all: run_rest envVars
    ltac:(cbn; intros H; injection H as <-; missing_field).
  all: cbn; discriminate.
Qed.

(** X2 at a connection URI that does not parse. *)
Lemma InitSettings_failure_reasons_witness :
  (exists name,
     In name requiredFields /\ redisEnvVars name = None
     /\ brokenURIError = ErrMissingEnvVar name)
  \/ (brokenURIError = insecureCookiesError
      /\ BoolGet redisEnvVars LocalCFEnvVar = false
      /\ BoolGet redisEnvVars SecureCookiesEnvVar = false)
  \/ (redisSelected redisEnvVars = true
      /\ snd (getRedisSettings brokenEnviron None) = Some brokenURIError)
  \/ (redisSelected redisEnvVars = true /\ None = Some brokenURIError).
Proof.
  apply (InitSettings_failure_reasons zeroSettings redisEnvVars None
           brokenEnviron None brokenURIError).
  vm_compute. reflexivity.
Defined.

(** X3. What the receiver held before the call has no part in the
    outcome of [InitSettings] nor in the objects it constructs, and when
    the call succeeds it has no part in the resulting [Settings] either:
    every field has been assigned. *)
Theorem InitSettings_ignores_receiver
    (s1 s2 : Settings) (envVars : EnvVars) (env : option cfenv.App)
    (environ : gmap string string) (ping : option error) :
  snd (InitSettings s1 envVars env environ ping)
  = snd (InitSettings s2 envVars env environ ping)
  /\ events (fst (InitSettings s1 envVars env environ ping))
     = events (fst (InitSettings s2 envVars env environ ping))
  /\ (snd (InitSettings s1 envVars env environ ping) = Returned None ->
      recv (fst (InitSettings s1 envVars env environ ping))
      = recv (fst (InitSettings s2 envVars env environ ping))).
Proof.
  unfold_exec.
  run_to_sessions envVars
    ltac:(cbn; split; [reflexivity|split; [reflexivity|discriminate]]).
  all: run_sessions envVars env environ ping
    ltac:(cbn; split; [reflexivity|split; [reflexivity|discriminate]]).
  all: run_rest envVars
    ltac:(cbn; split; [reflexivity|split; [reflexivity|discriminate]]).
  all: cbn; split; [reflexivity|split; [reflexivity|intros _; reflexivity]].
Qed.

(** X3 at a fresh and at a used [Settings]. *)
Lemma InitSettings_ignores_receiver_witness :
  recv (fst (InitSettings zeroSettings localEnvVars None ∅ None))
  = recv (fst (InitSettings usedSettings localEnvVars None ∅ None)).
Proof.
  apply (proj2 (proj2 (InitSettings_ignores_receiver zeroSettings usedSettings
                         localEnvVars None ∅ None))).
  reflexivity.
Defined.

(** X4. After a successful call the two OAuth descriptors agree: they
    hold the client id and the client secret of the environment and the
    same token URL, and their URLs are built on the URLs that the same
    [Settings] holds, the redirect URL on [AppURL], the authorize URL on
    [LoginURL] and the token URL on [UaaURL]. *)
Theorem InitSettings_oauth_descriptors
    (s : Settings) (envVars : EnvVars) (env : option cfenv.App)
    (environ : gmap string string) (ping : option error) :
  snd (InitSettings s envVars env environ ping) = Returned None ->
  let s' := recv (fst (InitSettings s envVars env environ ping)) in
  exists user admin,
    OAuthConfig s' = Some user
    /\ HighPrivilegedOauthConfig s' = Some admin
    /\ envVars ClientIDEnvVar = Some (oauth2.ClientID user)
    /\ envVars ClientSecretEnvVar = Some (oauth2.ClientSecret user)
    /\ clientcredentials.ClientID admin = oauth2.ClientID user
    /\ clientcredentials.ClientSecret admin = oauth2.ClientSecret user
    /\ clientcredentials.TokenURL admin
       = oauth2.TokenURL (oauth2.Endpoint_ user)
    /\ oauth2.TokenURL (oauth2.Endpoint_ user) = UaaURL s' +:+ "/oauth/token"
    /\ oauth2.AuthURL (oauth2.Endpoint_ user)
       = LoginURL s' +:+ "/oauth/authorize"
    /\ oauth2.RedirectURL user = AppURL s' +:+ "/oauth2callback"
    /\ envVars HostnameEnvVar = Some (AppURL s')
    /\ envVars LoginURLEnvVar = Some (LoginURL s')
    /\ envVars UAAURLEnvVar = Some (UaaURL s').
Proof.
  cbv zeta. unfold_exec.
  run_to_sessions envVars ltac:(discriminate).
  all: run_sessions envVars env environ ping ltac:(discriminate).
  all: run_rest envVars ltac:(discriminate).
  all: intros _; cbn; eexists; eexists; repeat split; eassumption.
Qed.

(** X4 at [localEnvVars]. *)
Lemma InitSettings_oauth_descriptors_witness :
  let s' := recv (fst (InitSettings zeroSettings localEnvVars None ∅ None)) in
  exists user admin,
    OAuthConfig s' = Some user
    /\ HighPrivilegedOauthConfig s' = Some admin
    /\ localEnvVars ClientIDEnvVar = Some (oauth2.ClientID user)
    /\ localEnvVars ClientSecretEnvVar = Some (oauth2.ClientSecret user)
    /\ clientcredentials.ClientID admin = oauth2.ClientID user
    /\ clientcredentials.ClientSecret admin = oauth2.ClientSecret user
    /\ clientcredentials.TokenURL admin
       = oauth2.TokenURL (oauth2.Endpoint_ user)
    /\ oauth2.TokenURL (oauth2.Endpoint_ user) = UaaURL s' +:+ "/oauth/token"
    /\ oauth2.AuthURL (oauth2.Endpoint_ user)
       = LoginURL s' +:+ "/oauth/authorize"
    /\ oauth2.RedirectURL user = AppURL s' +:+ "/oauth2callback"
    /\ localEnvVars HostnameEnvVar = Some (AppURL s')
    /\ localEnvVars LoginURLEnvVar = Some (LoginURL s')
    /\ localEnvVars UAAURLEnvVar = Some (UaaURL s').
Proof.
  exact (InitSettings_oauth_descriptors zeroSettings localEnvVars None ∅ None
           eq_refl).
Defined.

(** X18. [InitSettings] never panics: the only panics of its body are
    those of [MustGet], whose value the deferred function turns into
    the returned error. Calls into the libraries are taken not to
    panic. *)
Theorem InitSettings_always_returns
    (s : Settings) (envVars : EnvVars) (env : option cfenv.App)
    (environ : gmap string string) (ping : option error) :
  exists retErr,
    snd (InitSettings s envVars env environ ping) = Returned retErr.
Proof.
  unfold_exec.
  run_to_sessions envVars ltac:(cbn; eexists; reflexivity).
  all: run_sessions envVars env environ ping ltac:(cbn; eexists; reflexivity).
  all: run_rest envVars ltac:(cbn; eexists; reflexivity).
  all: cbn; eexists; reflexivity.
Qed.

(** X19. After a successful call the fields that are read from the
    environment hold what it holds, and nothing later in the function
    has overwritten them: the seven required strings are the values of
    their variables; the optional strings are the values of theirs, or
    empty when unset, the build information being ["developer-build"]
    when unset; the three flags are the parsed values of theirs, and one
    of the local-target flag and the secure-cookies flag is true; and
    the state generator asks for 32 random bytes. *)
Theorem InitSettings_fields_from_environment
    (s : Settings) (envVars : EnvVars) (env : option cfenv.App)
    (environ : gmap string string) (ping : option error) :
  snd (InitSettings s envVars env environ ping) = Returned None ->
  let s' := recv (fst (InitSettings s envVars env environ ping)) in
  envVars HostnameEnvVar = Some (AppURL s')
  /\ envVars APIURLEnvVar = Some (ConsoleAPI s')
  /\ envVars LoginURLEnvVar = Some (LoginURL s')
  /\ envVars UAAURLEnvVar = Some (UaaURL s')
  /\ envVars LogURLEnvVar = Some (LogURL s')
  /\ envVars SMTPFromEnvVar = Some (SMTPFrom s')
  /\ envVars SMTPHostEnvVar = Some (SMTPHost s')
  /\ BasePath s' = Get envVars BasePathEnvVar ""
  /\ BuildInfo s' = Get envVars BuildInfoEnvVar "developer-build"
  /\ SMTPPass s' = Get envVars SMTPPassEnvVar ""
  /\ SMTPPort s' = Get envVars SMTPPortEnvVar ""
  /\ SMTPUser s' = Get envVars SMTPUserEnvVar ""
  /\ TICSecret s' = Get envVars TICSecretEnvVar ""
  /\ PProfEnabled s' = BoolGet envVars PProfEnabledEnvVar
  /\ LocalCF s' = BoolGet envVars LocalCFEnvVar
  /\ SecureCookies s' = BoolGet envVars SecureCookiesEnvVar
  /\ LocalCF s' || SecureCookies s' = true
  /\ StateGenerator s' = Some (GenerateRandomString_closure 32).
Proof.
  cbv zeta. unfold_exec.
  run_to_sessions envVars ltac:(discriminate).
  all: run_sessions envVars env environ ping ltac:(discriminate).
  all: run_rest envVars ltac:(discriminate).
  all: intros _; cbn; repeat split;
    first [eassumption | symmetry; eassumption | reflexivity].
Qed.

(** X19 at [usedSettings] and [localEnvVars]: the fields of the earlier
    use are replaced. *)
Lemma InitSettings_fields_from_environment_witness :
  let s' := recv (fst (InitSettings usedSettings localEnvVars None ∅ None)) in
  localEnvVars HostnameEnvVar = Some (AppURL s')
  /\ localEnvVars APIURLEnvVar = Some (ConsoleAPI s')
  /\ localEnvVars LoginURLEnvVar = Some (LoginURL s')
  /\ localEnvVars UAAURLEnvVar = Some (UaaURL s')
  /\ localEnvVars LogURLEnvVar = Some (LogURL s')
  /\ localEnvVars SMTPFromEnvVar = Some (SMTPFrom s')
  /\ localEnvVars SMTPHostEnvVar = Some (SMTPHost s')
  /\ BasePath s' = Get localEnvVars BasePathEnvVar EmptyString
  /\ BuildInfo s' = Get localEnvVars BuildInfoEnvVar "developer-build"
  /\ SMTPPass s' = Get localEnvVars SMTPPassEnvVar EmptyString
  /\ SMTPPort s' = Get localEnvVars SMTPPortEnvVar EmptyString
  /\ SMTPUser s' = Get localEnvVars SMTPUserEnvVar EmptyString
  /\ TICSecret s' = Get localEnvVars TICSecretEnvVar EmptyString
  /\ PProfEnabled s' = BoolGet localEnvVars PProfEnabledEnvVar
  /\ LocalCF s' = BoolGet localEnvVars LocalCFEnvVar
  /\ SecureCookies s' = BoolGet localEnvVars SecureCookiesEnvVar
  /\ LocalCF s' || SecureCookies s' = true
  /\ StateGenerator s' = Some (GenerateRandomString_closure 32).
Proof.
  exact (InitSettings_fields_from_environment usedSettings localEnvVars None ∅
           None eq_refl).
Defined.


(** * The session backend of a run *)



(** X6. When the redis backend is selected and [InitSettings] succeeds,
    [Sessions] holds a redis store on the pool for the resolved address
    and password, with the session key, a cap of 16 KiB on an entry and
    the cookie options of the bootstrap with the secure-cookies flag;
    the backend is named ["redis"]; the health check returns true
    exactly when a PING on the connection it borrows returns no error;
    and the run has constructed the pool, the store, and registered the
    token type, in this order. *)
Theorem InitSettings_redis_backend
    (s : Settings) (envVars : EnvVars) (env : option cfenv.App)
    (environ : gmap string string) (ping : option error) :
  redisSelected envVars = true ->
  snd (InitSettings s envVars env environ ping) = Returned None ->
  let m := fst (InitSettings s envVars env environ ping) in
  exists address password key probe,
    getRedisSettings environ env = (address, password, None)
    /\ envVars SessionKeyEnvVar = Some key
    /\ Sessions (recv m)
       = Some (RediStore_ (redisStore (newRedisPool address password) key
                             (BoolGet envVars SecureCookiesEnvVar)))
    /\ SessionBackend (recv m) = "redis"
    /\ SessionBackendHealthCheck (recv m) = Some probe
    /\ (forall st : ProbeState,
          probe st = true <-> redis.Do (pool_Get st) "PING" [] = None)
    /\ events m
       = [NewPool (newRedisPool address password);
          NewRediStore
            (fst (redistore.NewRediStoreWithPool None
                    (newRedisPool address password) key));
          GobRegister "oauth2.Token"].
Proof.
  unfold redisSelected. cbv zeta. intros Hsel.
  unfold_exec. rewrite Hsel.
  run_to_sessions envVars ltac:(discriminate).
  all: (destruct (getRedisSettings environ env)
          as [[address password] [err|]] eqn:?; [discriminate|]);
    cbn [recv events fst snd];
    (destruct (envVars SessionKeyEnvVar) as [key|] eqn:?; [|discriminate]);
    unfold redistore.NewRediStoreWithPool;
    (destruct ping as [err|]; [discriminate|]);
    cbn [recv events];
    run_rest envVars ltac:(discriminate);
    intros _; cbn;
    exists address, password, key,
      (redisHealthCheck (newRedisPool address password));
    repeat split; unfold redisHealthCheck in *;
    destruct (redis.Do (pool_Get st) "PING" []); congruence.
Qed.

(** X6 at [redisEnvVars] and [redisEnviron]. *)
Lemma InitSettings_redis_backend_witness :
  let m := fst (InitSettings zeroSettings redisEnvVars None redisEnviron None) in
  exists address password key probe,
    getRedisSettings redisEnviron None = (address, password, None)
    /\ redisEnvVars SessionKeyEnvVar = Some key
    /\ Sessions (recv m)
       = Some (RediStore_ (redisStore (newRedisPool address password) key
                             (BoolGet redisEnvVars SecureCookiesEnvVar)))
    /\ SessionBackend (recv m) = "redis"
    /\ SessionBackendHealthCheck (recv m) = Some probe
    /\ (forall st : ProbeState,
          probe st = true <-> redis.Do (pool_Get st) "PING" [] = None)
    /\ events m
       = [NewPool (newRedisPool address password);
          NewRediStore
            (fst (redistore.NewRediStoreWithPool None
                    (newRedisPool address password) key));
          GobRegister "oauth2.Token"].
Proof.
  exact (InitSettings_redis_backend zeroSettings redisEnvVars None redisEnviron
           None eq_refl eq_refl).
Defined.

(** X7. When the redis backend is selected and the resolver returns an
    error, a run that reaches the sessions returns that error as it is:
    it has constructed nothing, and [Sessions], the name of the backend
    and the health check are as they were. *)
Theorem resolver_error_aborts_bootstrap
    (s : Settings) (envVars : EnvVars) (env : option cfenv.App)
    (environ : gmap string string) (ping : option error) (e : error) :
  redisSelected envVars = true ->
  allPresent envVars beforeSessions = true ->
  BoolGet envVars LocalCFEnvVar || BoolGet envVars SecureCookiesEnvVar = true ->
  snd (getRedisSettings environ env) = Some e ->
  let m := fst (InitSettings s envVars env environ ping) in
  snd (InitSettings s envVars env environ ping) = Returned (Some e)
  /\ events m = []
  /\ Sessions (recv m) = Sessions s
  /\ SessionBackend (recv m) = SessionBackend s
  /\ SessionBackendHealthCheck (recv m) = SessionBackendHealthCheck s.
Proof.
  unfold redisSelected, allPresent, isPresent.
  cbn [beforeSessions beforeGuard app forallb]. cbv zeta.
  intros Hsel Hpresent Hguard Herr. revert Hpresent Hguard.
  unfold_exec. rewrite Hsel.
  run_to_sessions envVars ltac:(cbn; discriminate).
  all: destruct (getRedisSettings environ env) as [[address password] err];
    cbn [snd] in Herr; subst err; intros _ _; cbn; repeat split.
Qed.

(** X7 at [brokenEnviron]. *)
Lemma resolver_error_aborts_bootstrap_witness :
  let m := fst (InitSettings usedSettings redisEnvVars None brokenEnviron None) in
  snd (InitSettings usedSettings redisEnvVars None brokenEnviron None)
  = Returned (Some brokenURIError)
  /\ events m = []
  /\ Sessions (recv m) = Sessions usedSettings
  /\ SessionBackend (recv m) = SessionBackend usedSettings
  /\ SessionBackendHealthCheck (recv m)
     = SessionBackendHealthCheck usedSettings.
Proof.
  apply (resolver_error_aborts_bootstrap usedSettings redisEnvVars None
           brokenEnviron None brokenURIError);
    vm_compute; reflexivity.
Defined.

(** X8. When the redis backend is selected and the first round trip of
    the new store fails, a run that reaches it returns that error as it
    is. The pool and the store have been constructed, and nothing takes
    their place: [Sessions], the name of the backend and the health
    check are as they were, and no file store is constructed. *)
Theorem store_error_aborts_bootstrap
    (s : Settings) (envVars : EnvVars) (env : option cfenv.App)
    (environ : gmap string string) (e : error) :
  redisSelected envVars = true ->
  allPresent envVars (beforeSessions ++ [SessionKeyEnvVar]) = true ->
  BoolGet envVars LocalCFEnvVar || BoolGet envVars SecureCookiesEnvVar = true ->
  snd (getRedisSettings environ env) = None ->
  let m := fst (InitSettings s envVars env environ (Some e)) in
  let r := getRedisSettings environ env in
  let pool := newRedisPool (fst (fst r)) (snd (fst r)) in
  snd (InitSettings s envVars env environ (Some e)) = Returned (Some e)
  /\ events m
     = [NewPool pool;
        NewRediStore
          (fst (redistore.NewRediStoreWithPool (Some e) pool
                  (Get envVars SessionKeyEnvVar "")))]
  /\ Sessions (recv m) = Sessions s
  /\ SessionBackend (recv m) = SessionBackend s
  /\ SessionBackendHealthCheck (recv m) = SessionBackendHealthCheck s.
Proof.
  unfold redisSelected, allPresent, isPresent, Get at 2.
  cbn [beforeSessions beforeGuard app forallb]. cbv zeta.
  intros Hsel Hpresent Hguard Herr. revert Hpresent Hguard.
  unfold_exec. rewrite Hsel.
  run_to_sessions envVars ltac:(cbn; discriminate).
  all: destruct (getRedisSettings environ env) as [[address password] err];
    cbn [snd] in Herr; subst err; cbn [recv events fst snd];
    (destruct (envVars SessionKeyEnvVar) as [key|]; [|cbn; discriminate]);
    intros _ _; cbn; repeat split.
Qed.

(** X8 at a server that refuses the connection. *)
Lemma store_error_aborts_bootstrap_witness :
  let m := fst (InitSettings usedSettings redisEnvVars None redisEnviron
                  (Some connectionRefused)) in
  let pool := newRedisPool "cachehost:6380" "secret" in
  snd (InitSettings usedSettings redisEnvVars None redisEnviron
         (Some connectionRefused))
  = Returned (Some connectionRefused)
  /\ events m
     = [NewPool pool;
        NewRediStore
          (fst (redistore.NewRediStoreWithPool (Some connectionRefused) pool
                  "session-key"))]
  /\ Sessions (recv m) = Sessions usedSettings
  /\ SessionBackend (recv m) = SessionBackend usedSettings
  /\ SessionBackendHealthCheck (recv m)
     = SessionBackendHealthCheck usedSettings.
Proof.
  apply (store_error_aborts_bootstrap usedSettings redisEnvVars None
           redisEnviron connectionRefused);
    vm_compute; reflexivity.
Defined.

(** X9. When the selector of the session backend is not ["redis"],
    [InitSettings] consults neither the service binding, nor the
    connection URI of the process environment, nor the cache server:
    its whole result is the one it has without them. *)
Theorem file_backend_reads_no_redis_source
    (s : Settings) (envVars : EnvVars) (env : option cfenv.App)
    (environ : gmap string string) (ping : option error) :
  redisSelected envVars = false ->
  InitSettings s envVars env environ ping
  = InitSettings s envVars None ∅ None.
Proof.
  unfold redisSelected. intros Hsel. unfold_exec. rewrite Hsel. reflexivity.
Qed.

(** X9 at [localEnvVars], beside a broken connection URI and a server
    that refuses the connection. *)
Lemma file_backend_reads_no_redis_source_witness :
  InitSettings zeroSettings localEnvVars (Some uriBinding) brokenEnviron
    (Some connectionRefused)
  = InitSettings zeroSettings localEnvVars None ∅ None.
Proof.
  exact (file_backend_reads_no_redis_source zeroSettings localEnvVars
           (Some uriBinding) brokenEnviron (Some connectionRefused) eq_refl).
Defined.


(** * The connections that the pool dials *)

(** X10. The calls of the [Dial] function of a pool that
    [InitSettings] has constructed, on the network [net] and with [err]
    the error that the function has captured. When the dial fails it is
    the only call, and its error is returned; with an empty password a
    connection is returned after the dial alone; the only command ever
    sent is AUTH, with the password and only when there is one; and the
    connection is closed only when the captured error is not nil, in
    which case no connection is returned. *)
Theorem Dial_calls
    (s : Settings) (envVars : EnvVars) (env : option cfenv.App)
    (environ : gmap string string) (ping : option error) (pool : redis.Pool)
    (err : option error) (net : redis.Network) :
  In (NewPool pool) (events (fst (InitSettings s envVars env environ ping))) ->
  let address := fst (fst (getRedisSettings environ env)) in
  let password := snd (fst (getRedisSettings environ env)) in
  let calls := fst (redis.Dial pool err net) in
  let result := snd (redis.Dial pool err net) in
  (forall dialErr,
     net "tcp" address dialOptions = inl dialErr ->
     calls = [redis.CallDial "tcp" address dialOptions]
     /\ result = (None, Some dialErr))
  /\ (forall c,
        net "tcp" address dialOptions = inr c ->
        password = "" ->
        calls = [redis.CallDial "tcp" address dialOptions]
        /\ result = (Some c, None))
  /\ (forall id cmd args,
        In (redis.CallDo id cmd args) calls ->
        cmd = "AUTH" /\ args = [password] /\ password <> "")
  /\ (forall id,
        In (redis.CallClose id) calls -> err <> None /\ fst result = None).
Proof.
  intros Hin.
  destruct (InitSettings_pool _ _ _ _ _ _ Hin)
    as [_ [address [password [Hr ->]]]].
  rewrite Hr. cbn [fst snd redis.Dial newRedisPool]. unfold redisPool_Dial.
  destruct (net "tcp" address dialOptions) as [dialErr|c].
  - cbn. repeat split; intros; in_trace; congruence.
  - destruct (String.eqb_spec password "") as [->|Hne]; cbn [negb].
    + cbn. repeat split; intros; in_trace; congruence.
    + destruct err as [e|]; cbn; repeat split; intros; in_trace; congruence.
Qed.

(** X10 for the pool of [redisEnvVars], on a network where no dial
    succeeds. *)
Lemma Dial_calls_witness :
  fst (redis.Dial (newRedisPool "cachehost:6380" "secret") None deadNetwork)
  = [redis.CallDial "tcp" "cachehost:6380" dialOptions]
  /\ snd (redis.Dial (newRedisPool "cachehost:6380" "secret") None deadNetwork)
     = (None, Some connectionRefused).
Proof.
  refine (proj1 (Dial_calls zeroSettings redisEnvVars None redisEnviron None
                   (newRedisPool "cachehost:6380" "secret") None deadNetwork _)
            connectionRefused _).
  - vm_compute. left. reflexivity.
  - reflexivity.
Defined.

(** * The context of the HTTP connections *)

(** X11. [CreateContext] on the [Settings] of a successful
    [InitSettings]. When the local-target flag of the environment is
    false, the context is the empty one, the default client of the
    process is left as it is, and the cookies are secure. When the flag
    is true, the context carries the default client under the key
    [oauth2.HTTPClient], and that client, which the whole process
    shares, verifies no certificate from then on; its other fields are
    kept, and a second call changes nothing more. *)
Theorem CreateContext_after_InitSettings
    (s : Settings) (envVars : EnvVars) (env : option cfenv.App)
    (environ : gmap string string) (ping : option error)
    (DefaultClient : http.Client) :
  snd (InitSettings s envVars env environ ping) = Returned None ->
  let s' := recv (fst (InitSettings s envVars env environ ping)) in
  let ctx := fst (CreateContext s' DefaultClient) in
  let client := snd (CreateContext s' DefaultClient) in
  (BoolGet envVars LocalCFEnvVar = false ->
   ctx = netcontext.TODO /\ client = DefaultClient
   /\ SecureCookies s' = true)
  /\ (BoolGet envVars LocalCFEnvVar = true ->
      netcontext.Value ctx netcontext.oauth2_HTTPClient
      = Some netcontext.DefaultClientPointer
      /\ skipsVerification client = true
      /\ http.Timeout client = http.Timeout DefaultClient
      /\ snd (CreateContext s' client) = client).
Proof.
  cbv zeta. unfold CreateContext. unfold_exec.
  run_to_sessions envVars ltac:(discriminate).
  all: run_sessions envVars env environ ping ltac:(discriminate).
  all: run_rest envVars ltac:(discriminate).
  all: intros _; cbn; split; intros H; first [discriminate H | repeat split].
Qed.

(** X11 at [localEnvVars], whose local-target flag is true. *)
Lemma CreateContext_after_InitSettings_witness :
  let s' := recv (fst (InitSettings zeroSettings localEnvVars None ∅ None)) in
  let ctx := fst (CreateContext s' freshClient) in
  let client := snd (CreateContext s' freshClient) in
  netcontext.Value ctx netcontext.oauth2_HTTPClient
  = Some netcontext.DefaultClientPointer
  /\ skipsVerification client = true
  /\ http.Timeout client = http.Timeout freshClient
  /\ snd (CreateContext s' client) = client.
Proof.
  refine (proj2 (CreateContext_after_InitSettings zeroSettings localEnvVars
                   None ∅ None freshClient _) _);
    vm_compute; reflexivity.
Defined.


(** * Further properties of the resolver *)

(** X12. The only error of [getRedisSettings] is the error of
    [url.Parse] on the URI it has chosen: the errors of the lookup in
    the binding are dropped for the default. With an error, the address
    and the password are empty. *)
Theorem getRedisSettings_error_is_parse_error
    (environ : gmap string string) (env : option cfenv.App)
    (address password : string) (e : error) :
  getRedisSettings environ env = (address, password, Some e) ->
  address = "" /\ password = ""
  /\ exists uri cause, e = url_Error "parse" uri cause.
Proof.
  unfold getRedisSettings.
  destruct (if String.eqb (Getenv environ "REDIS_URI") "" then _ else _)
    as [uri err].
  generalize (if String.eqb uri "" || notNil err
              then "redis://localhost:6379" else uri).
  intros chosen. unfold settingsOfURI, url.Parse.
  destruct (GoStrings.Cut chosen "#") as [[u frag] found].
  destruct (url.parse u) as [cause|parsed].
  - intros H. injection H as <- <- <-. repeat split. eauto.
  - destruct (String.eqb frag ""); [discriminate|].
    destruct (url.setFragment frag) as [cause|]; [|discriminate].
    intros H. injection H as <- <- <-. repeat split. eauto.
Qed.

(** X12 at [brokenEnviron]. *)
Lemma getRedisSettings_error_is_parse_error_witness :
  EmptyString = EmptyString /\ EmptyString = EmptyString
  /\ exists uri cause, brokenURIError = url_Error "parse" uri cause.
Proof.
  apply (getRedisSettings_error_is_parse_error brokenEnviron None).
  vm_compute. reflexivity.
Defined.

Lemma Parse_scheme_authority scheme authority user host :
  validScheme scheme = true ->
  allBytes partByte authority = true ->
  GoStrings.Contains authority "/" = false ->
  url.parseAuthority authority = inr (user, host) ->
  url.Parse (schemeAuthorityURI scheme authority) = inr (url.mkURL user host).
Proof.
  intros Hscheme Hparts Hslash Hauth.
  assert (Huri : allBytes partByte (schemeAuthorityURI scheme authority) = true).
  { unfold schemeAuthorityURI. rewrite !allBytes_app.
    rewrite (allBytes_impl _ _ scheme scheme_part
               (validScheme_bytes _ Hscheme)), Hparts.
    reflexivity. }
  unfold url.Parse.
  rewrite (Cut_absent _ "#"
             (allBytes_not_Contains partByte _ "#" eq_refl Huri)).
  unfold url.parse.
  assert (H1 : url.stringContainsCTLByte (schemeAuthorityURI scheme authority)
               = false).
  { unfold url.stringContainsCTLByte.
    rewrite (allBytes_impl _ _ _ part_not_CTL Huri). reflexivity. }
  rewrite H1.
  rewrite (validScheme_not_star scheme _ Hscheme
           : String.eqb (schemeAuthorityURI scheme authority) "*" = false).
  change (schemeAuthorityURI scheme authority)
    with (scheme +:+ String ":" (String "/" (String "/" authority))).
  rewrite (getScheme_scheme scheme _ Hscheme).
  assert (Hq : GoStrings.Contains (String "/" (String "/" authority)) "?"
               = false).
  { cbn [GoStrings.Contains].
    rewrite (allBytes_not_Contains partByte _ "?" eq_refl Hparts).
    reflexivity. }
  rewrite (Count_absent _ "?" Hq), andb_false_r.
  rewrite (Cut_absent _ "?" Hq).
  cbn [fst GoStrings.HasPrefix]. rewrite !Ascii.eqb_refl.
  cbn [andb negb orb].
  rewrite (validScheme_not_empty scheme Hscheme). cbn [andb negb orb].
  replace (GoStrings.HasPrefix authority "") with true
    by (destruct authority; reflexivity).
  rewrite (Cut_absent authority "/" Hslash), Hauth.
  reflexivity.
Qed.

Lemma parseAuthority_no_userinfo host port :
  allBytes plainByte host = true -> allBytes isDigit port = true ->
  url.parseAuthority (hostPort host port) = inr (None, hostPort host port).
Proof.
  intros Hhost Hport. unfold url.parseAuthority.
  change (hostPort host port) with (host +:+ String ":" port).
  rewrite LastCut_absent.
  - rewrite (parseHost_plain host port Hhost Hport). reflexivity.
  - rewrite Contains_app. cbn [GoStrings.Contains].
    rewrite (allBytes_not_Contains plainByte host "@" eq_refl Hhost).
    rewrite (allBytes_not_Contains isDigit port "@" eq_refl Hport).
    reflexivity.
Qed.

Lemma parseAuthority_user_only user host port :
  allBytes plainByte user = true ->
  allBytes plainByte host = true -> allBytes isDigit port = true ->
  url.parseAuthority (user +:+ "@" +:+ hostPort host port)
  = inr (Some (url.User user), hostPort host port).
Proof.
  intros Huser Hhost Hport. unfold url.parseAuthority.
  change (user +:+ "@" +:+ hostPort host port)
    with (user +:+ String "@" (host +:+ String ":" port)).
  change (hostPort host port) with (host +:+ String ":" port).
  rewrite (LastCut_app user (host +:+ String ":" port) "@").
  2:{ rewrite Contains_app. cbn [GoStrings.Contains].
      rewrite (allBytes_not_Contains plainByte host "@" eq_refl Hhost).
      rewrite (allBytes_not_Contains isDigit port "@" eq_refl Hport).
      reflexivity. }
  rewrite (parseHost_plain host port Hhost Hport).
  unfold url.validUserinfo.
  rewrite (allBytes_impl _ _ user plain_userinfo Huser). cbn [negb].
  rewrite (allBytes_not_Contains plainByte user ":" eq_refl Huser).
  cbn [negb].
  rewrite (unescape_plain url.encodeUserPassword user eq_refl
             (allBytes_impl _ _ user plain_passes_user Huser)).
  reflexivity.
Qed.

Lemma hostPort_parts host port :
  allBytes plainByte host = true -> allBytes isDigit port = true ->
  allBytes partByte (hostPort host port) = true
  /\ GoStrings.Contains (hostPort host port) "/" = false.
Proof.
  intros Hhost Hport. unfold hostPort. split.
  - rewrite !allBytes_app.
    rewrite (allBytes_impl _ _ host plain_part Hhost).
    rewrite (allBytes_impl _ _ port digit_part Hport). reflexivity.
  - rewrite !Contains_app.
    rewrite (allBytes_not_Contains plainByte host "/" eq_refl Hhost).
    rewrite (allBytes_not_Contains isDigit port "/" eq_refl Hport).
    reflexivity.
Qed.

Lemma getRedisSettings_direct environ env uri :
  Getenv environ "REDIS_URI" = uri -> String.eqb uri "" = false ->
  getRedisSettings environ env = settingsOfURI uri.
Proof.
  intros Hdirect Hne. unfold getRedisSettings. rewrite Hdirect, Hne.
  cbn [notNil orb]. rewrite Hne. reflexivity.
Qed.

Lemma schemeAuthorityURI_not_empty scheme authority :
  String.eqb (schemeAuthorityURI scheme authority) "" = false.
Proof.
  unfold schemeAuthorityURI.
  destruct scheme; reflexivity.
Qed.

(** X13. A connection URI of the process environment that gives no
    password, [scheme://host:port] or [scheme://user@host:port],
    resolves to the address [host:port] and the empty password,
    whatever the binding holds: the pool then sends no AUTH. *)
Theorem uri_without_password
    (scheme user host port : string) (environ : gmap string string)
    (env : option cfenv.App) :
  validScheme scheme = true ->
  allBytes plainByte user = true ->
  allBytes plainByte host = true ->
  allBytes isDigit port = true ->
  (Getenv environ "REDIS_URI" = schemeAuthorityURI scheme (hostPort host port) ->
   getRedisSettings environ env = (hostPort host port, "", None))
  /\ (Getenv environ "REDIS_URI"
      = schemeAuthorityURI scheme (user +:+ "@" +:+ hostPort host port) ->
      getRedisSettings environ env = (hostPort host port, "", None)).
Proof.
  intros Hscheme Huser Hhost Hport.
  destruct (hostPort_parts host port Hhost Hport) as [Hparts Hslash].
  split; intros Hdirect.
  - rewrite (getRedisSettings_direct _ _ _ Hdirect
               (schemeAuthorityURI_not_empty _ _)).
    unfold settingsOfURI.
    rewrite (Parse_scheme_authority scheme _ None (hostPort host port)
               Hscheme Hparts Hslash
               (parseAuthority_no_userinfo host port Hhost Hport)).
    reflexivity.
  - rewrite (getRedisSettings_direct _ _ _ Hdirect
               (schemeAuthorityURI_not_empty _ _)).
    unfold settingsOfURI.
    rewrite (Parse_scheme_authority scheme _ (Some (url.User user))
               (hostPort host port) Hscheme).
    + reflexivity.
    + rewrite !allBytes_app.
      rewrite (allBytes_impl _ _ user plain_part Huser), Hparts.
      reflexivity.
    + rewrite !Contains_app.
      rewrite (allBytes_not_Contains plainByte user "/" eq_refl Huser), Hslash.
      reflexivity.
    + exact (parseAuthority_user_only user host port Huser Hhost Hport).
Qed.

(** X13 at the URI [redis://cache@cachehost:6380], beside a binding
    that gives a password. *)
Lemma uri_without_password_witness :
  getRedisSettings {[ "REDIS_URI" := "redis://cache@cachehost:6380" ]}
    (Some uriBinding)
  = (hostPort "cachehost" "6380", EmptyString, None).
Proof.
  refine (proj2 (uri_without_password "redis" "cache" "cachehost" "6380"
                   {[ "REDIS_URI" := "redis://cache@cachehost:6380" ]}
                   (Some uriBinding) _ _ _ _) _);
    vm_compute; reflexivity.
Defined.

(** X14. The legacy credentials make a round trip through the URI:
    when the connection URI of the process environment is unset and the
    first service tagged redis has no string under ["uri"] but a
    hostname, a port and a password without reserved characters, the
    URI that [getRedisURIFromParts] builds parses back, and the resolver
    returns the address [hostname:port] and that password. *)
Theorem legacy_credentials_round_trip
    (environ : gmap string string) (service : cfenv.Service)
    (others : list cfenv.Service) (host port password : string) :
  Getenv environ "REDIS_URI" = "" ->
  In "redis" (cfenv.Tags service) ->
  hasString service "uri" = false ->
  cfenv.Credentials service !! "hostname" = Some (cfenv.VString host) ->
  cfenv.Credentials service !! "port" = Some (cfenv.VString port) ->
  cfenv.Credentials service !! "password" = Some (cfenv.VString password) ->
  allBytes plainByte host = true ->
  allBytes isDigit port = true ->
  allBytes plainByte password = true ->
  getRedisURIFromParts service
  = (connectionURI "redis" password host port, None)
  /\ getRedisSettings environ (Some (cfenv.mkApp (service :: others)))
     = (hostPort host port, password, None).
Proof.
  intros Hdirect Htag Huri Hh Hp Hpw Hhost Hport Hpassword.
  assert (Hparts : getRedisURIFromParts service
                   = (connectionURI "redis" password host port, None)).
  { unfold getRedisURIFromParts. rewrite Hh, Hp, Hpw. reflexivity. }
  split; [exact Hparts|].
  unfold getRedisSettings. rewrite Hdirect. cbn [String.eqb].
  unfold getRedisService. cbn [cfenv.Services].
  destruct (WithTag_first service others Htag) as [rest ->].
  unfold hasString in Huri.
  destruct (assertString (cfenv.Credentials service !! "uri")) as [u ok].
  cbn [snd] in Huri. subst ok. cbn [negb]. rewrite Hparts.
  replace (String.eqb (connectionURI "redis" password host port) "")
    with false by reflexivity.
  cbn [notNil orb]. unfold settingsOfURI.
  rewrite (Parse_connectionURI "redis" password host port eq_refl
             Hpassword Hhost Hport).
  reflexivity.
Qed.

(** X14 at [legacyService]. *)
Lemma legacy_credentials_round_trip_witness :
  getRedisURIFromParts legacyService
  = (connectionURI "redis" "secret" "cachehost" "6380", None)
  /\ getRedisSettings ∅ (Some (cfenv.mkApp [legacyService]))
     = (hostPort "cachehost" "6380", "secret", None).
Proof.
  apply (legacy_credentials_round_trip ∅ legacyService [] "cachehost" "6380"
           "secret");
    first [ left; reflexivity | vm_compute; reflexivity ].
Defined.

Lemma WithTag_none (services : list cfenv.Service) :
  (forall service tag,
     In service services -> In tag (cfenv.Tags service) ->
     cfenv.EqualFold "redis" tag = false) ->
  exists err, cfenv.WithTag services "redis" = ([], Some err).
Proof.
  intros Hnone. unfold cfenv.WithTag.
  replace (List.filter
             (fun service => existsb (cfenv.EqualFold "redis")
                               (cfenv.Tags service)) services)
    with (@nil cfenv.Service); [eauto|].
  symmetry. induction services as [|service services IH]; [reflexivity|].
  cbn [List.filter].
  replace (existsb (cfenv.EqualFold "redis") (cfenv.Tags service)) with false.
  - apply IH. intros s t Hs. apply Hnone. right. exact Hs.
  - symmetry. apply not_true_is_false. intros H.
    apply existsb_exists in H as [t [Ht Heq]].
    rewrite (Hnone service t (or_introl eq_refl) Ht) in Heq.
    discriminate Heq.
Qed.

(** X15. When the connection URI of the process environment is unset
    and no service of the binding has a tag that is ["redis"] up to
    letter case, or there is no binding at all, [getRedisService]
    returns the empty URI with an error, and the resolver falls back on
    the local server, with no password and no error. *)
Theorem binding_without_redis_service
    (environ : gmap string string) (env : option cfenv.App) :
  Getenv environ "REDIS_URI" = "" ->
  (forall app service tag,
     env = Some app -> In service (cfenv.Services app) ->
     In tag (cfenv.Tags service) -> cfenv.EqualFold "redis" tag = false) ->
  fst (getRedisService env) = ""
  /\ (exists err, snd (getRedisService env) = Some err)
  /\ getRedisSettings environ env = ("localhost:6379", "", None).
Proof.
  intros Hdirect Hnone.
  assert (H : fst (getRedisService env) = ""
              /\ exists err, snd (getRedisService env) = Some err).
  { unfold getRedisService. destruct env as [app|].
    - destruct (WithTag_none (cfenv.Services app)) as [err ->].
      + intros service tag. exact (Hnone app service tag eq_refl).
      + split; [reflexivity|]. eauto.
    - split; [reflexivity|]. eauto. }
  destruct H as [Huri [err Herr]].
  repeat split; [exact Huri|eauto|].
  apply getRedisSettings_fallback; [exact Hdirect|].
  right. rewrite Herr. discriminate.
Qed.

(** X15 at a binding whose only service is a database. *)
Lemma binding_without_redis_service_witness :
  fst (getRedisService (Some databaseBinding)) = EmptyString
  /\ (exists err, snd (getRedisService (Some databaseBinding)) = Some err)
  /\ getRedisSettings ∅ (Some databaseBinding)
     = ("localhost:6379", EmptyString, None).
Proof.
  apply (binding_without_redis_service ∅ (Some databaseBinding)).
  - vm_compute. reflexivity.
  - intros app service tag Happ. injection Happ as <-.
    intros [<-|[]] [<-|[<-|[]]]; reflexivity.
Defined.


(** * The deployment script *)

Lemma skipDigits_split s :
  exists run, allBytes isDigit run = true /\ s = run +:+ deploy.skipDigits s.
Proof.
  induction s as [|c s [run [Hrun Hs]]].
  - exists "". split; reflexivity.
  - cbn [deploy.skipDigits]. destruct (isDigit c) eqn:Hc.
    + exists (String c run). cbn [allBytes]. rewrite Hc, Hrun.
      split; [reflexivity|].
      change (String c run +:+ deploy.skipDigits s)
        with (String c (run +:+ deploy.skipDigits s)).
      rewrite <- Hs. reflexivity.
    + exists "". split; reflexivity.
Qed.

Lemma digits_split s rest :
  deploy.digits s = Some rest ->
  exists run, digitRun run = true /\ s = run +:+ rest.
Proof.
  destruct s as [|c s]; [discriminate|]. cbn [deploy.digits].
  destruct (isDigit c) eqn:Hc; [|discriminate].
  intros H. injection H as <-.
  destruct (skipDigits_split s) as [run [Hrun Hs]].
  exists (String c run). unfold digitRun. cbn [String.eqb negb allBytes].
  rewrite Hc, Hrun. split; [reflexivity|].
  change (String c run +:+ deploy.skipDigits s)
    with (String c (run +:+ deploy.skipDigits s)).
  rewrite <- Hs. reflexivity.
Qed.

Lemma dot_split s rest : deploy.dot s = Some rest -> s = "." +:+ rest.
Proof.
  destruct s as [|c s]; [discriminate|]. cbn [deploy.dot].
  destruct (Ascii.eqb_spec c "."); [|discriminate].
  intros H. injection H as <-. subst c. reflexivity.
Qed.

Lemma skipDigits_run run rest :
  allBytes isDigit run = true ->
  deploy.skipDigits (run +:+ rest) = deploy.skipDigits rest.
Proof.
  induction run as [|c run IH]; [reflexivity|].
  cbn [allBytes]. intros H. apply andb_true_iff in H as [Hc Hrun].
  change (String c run +:+ rest) with (String c (run +:+ rest)).
  cbn [deploy.skipDigits]. rewrite Hc. exact (IH Hrun).
Qed.

Lemma digits_run_dot run rest :
  digitRun run = true ->
  deploy.digits (run +:+ "." +:+ rest) = Some ("." +:+ rest).
Proof.
  unfold digitRun. destruct run as [|c run]; [discriminate|].
  cbn [String.eqb negb andb allBytes]. intros H.
  apply andb_true_iff in H as [Hc Hrun].
  change (String c run +:+ "." +:+ rest)
    with (String c (run +:+ "." +:+ rest)).
  cbn [deploy.digits]. rewrite Hc, (skipDigits_run run _ Hrun).
  reflexivity.
Qed.

Lemma digits_run run rest :
  digitRun run = true -> exists r, deploy.digits (run +:+ rest) = Some r.
Proof.
  unfold digitRun. destruct run as [|c run]; [discriminate|].
  cbn [String.eqb negb andb allBytes]. intros H.
  apply andb_true_iff in H as [Hc Hrun].
  change (String c run +:+ rest) with (String c (run +:+ rest)).
  cbn [deploy.digits]. rewrite Hc. eauto.
Qed.

(** X16. The test of the tag holds exactly for the tags that start
    with three runs of digits, none of them empty, with a dot between
    them. Nothing is asked of what follows: the expression has no anchor
    at its end, so a tag that goes on after the patch number with any
    text at all is a version tag. *)
Theorem versionTag_iff (tag : string) :
  deploy.versionTag tag = true
  <-> exists major minor patch rest,
        digitRun major = true /\ digitRun minor = true
        /\ digitRun patch = true
        /\ tag = major +:+ "." +:+ minor +:+ "." +:+ patch +:+ rest.
Proof.
  unfold deploy.versionTag. split.
  - destruct (deploy.digits tag) as [r1|] eqn:H1; [|discriminate].
    destruct (deploy.dot r1) as [r2|] eqn:H2; [|discriminate].
    destruct (deploy.digits r2) as [r3|] eqn:H3; [|discriminate].
    destruct (deploy.dot r3) as [r4|] eqn:H4; [|discriminate].
    destruct (deploy.digits r4) as [r5|] eqn:H5; [|discriminate].
    intros _.
    destruct (digits_split _ _ H1) as [major [Hmajor ->]].
    destruct (digits_split _ _ H3) as [minor [Hminor ->]].
    destruct (digits_split _ _ H5) as [patch [Hpatch ->]].
    rewrite (dot_split _ _ H2), (dot_split _ _ H4).
    exists major, minor, patch, r5. repeat split; assumption.
  - intros (major & minor & patch & rest & Hmajor & Hminor & Hpatch & ->).
    rewrite (digits_run_dot major _ Hmajor).
    change (deploy.dot ("." +:+ minor +:+ "." +:+ patch +:+ rest))
      with (Some (minor +:+ "." +:+ patch +:+ rest)).
    cbv iota.
    rewrite (digits_run_dot minor _ Hminor).
    change (deploy.dot ("." +:+ patch +:+ rest))
      with (Some (patch +:+ rest)).
    cbv iota.
    destruct (digits_run patch rest Hpatch) as [r ->]. reflexivity.
Qed.

(** X16 at a tag that goes on after the patch number. *)
Lemma versionTag_iff_witness :
  deploy.versionTag "1.12.3 is not a release" = true.
Proof.
  apply (proj2 (versionTag_iff "1.12.3 is not a release")).
  exists "1", "12", "3", " is not a release". repeat split.
Defined.

(** X17. The script ends in one of three ways. It exits with status 1
    and the message of the unknown environment, when the tag is no
    version tag and the branch is neither master nor demo. It deploys
    to production, with the credentials of the production space,
    exactly when the tag is a version tag, whatever the branch. Or it
    deploys to the stage space, with the credentials of that space, the
    manifest and the application being those of staging on master and
    those of the demo on demo. The exit for an unknown space is never
    taken. *)
Theorem deploy_target_and_credentials (env : gmap string string) :
  (deploy.script env = deploy.Exit 1 "Unknown environment, quitting."
   /\ deploy.versionTag (deploy.var env "CIRCLE_TAG") = false
   /\ deploy.var env "CIRCLE_BRANCH" <> "master"
   /\ deploy.var env "CIRCLE_BRANCH" <> "demo")
  \/ (exists call,
        deploy.script env = deploy.Deployed call
        /\ deploy.versionTag (deploy.var env "CIRCLE_TAG") = true
        /\ deploy.manifest call = "manifests/manifest-prod.yml"
        /\ deploy.space call = "dashboard-prod"
        /\ deploy.app call = "cg-dashboard"
        /\ deploy.org call = deploy.var env "CF_ORGANIZATION"
        /\ deploy.CF_USERNAME call = deploy.var env "CF_USERNAME_PROD_SPACE"
        /\ deploy.CF_PASSWORD call = deploy.var env "CF_PASSWORD_PROD_SPACE")
  \/ (exists call,
        deploy.script env = deploy.Deployed call
        /\ deploy.versionTag (deploy.var env "CIRCLE_TAG") = false
        /\ deploy.space call = "dashboard-stage"
        /\ deploy.org call = deploy.var env "CF_ORGANIZATION"
        /\ deploy.CF_USERNAME call = deploy.var env "CF_USERNAME_STAGE_SPACE"
        /\ deploy.CF_PASSWORD call = deploy.var env "CF_PASSWORD_STAGE_SPACE"
        /\ (deploy.var env "CIRCLE_BRANCH" = "master"
            /\ deploy.manifest call = "manifests/manifest-staging.yml"
            /\ deploy.app call = "cg-dashboard-staging"
            \/ deploy.var env "CIRCLE_BRANCH" = "demo"
               /\ deploy.manifest call = "manifests/manifest-demo.yml"
               /\ deploy.app call = "cg-dashboard-demo")).
Proof.
  unfold deploy.script, deploy.chooseTarget.
  destruct (deploy.versionTag (deploy.var env "CIRCLE_TAG")).
  - right. left. eexists. repeat split.
  - destruct (String.eqb_spec (deploy.var env "CIRCLE_BRANCH") "master")
      as [Hm|Hm].
    + right. right. eexists. split; [reflexivity|].
      repeat (split; [reflexivity|]). left. repeat split. exact Hm.
    + destruct (String.eqb_spec (deploy.var env "CIRCLE_BRANCH") "demo")
        as [Hd|Hd].
      * right. right. eexists. split; [reflexivity|].
        repeat (split; [reflexivity|]). right. repeat split. exact Hd.
      * left. repeat split; assumption.
Qed.
